(** * Entra-ID / Slack MCP server session demo: a model of the OAuth facade

    A shallow embedding of [src/auth/SlackAuthProvider.ts] (the
    authorization provider with its client registry, session store and PKCE
    generator) and of the tool dispatcher of [src/Tools.ts], followed by the
    properties of the specification stated over it.

    Conventions.
    - A JavaScript string is a [string]: a sequence of 8-bit characters, read
      as the UTF-8 bytes of the text.  A [Buffer] is a [list ascii].
    - A JavaScript [Map] is an insertion-ordered association list ([JsMap]).
    - A call that may throw returns a [Completion]; code that threads the
      provider's fields, the disk and the console through many calls runs in
      the monad [Js].
    - What the environment decides (random draws, the outcome of a disk
      write, the third-party installer) is an explicit argument or a field
      of an interface class. *)

From Stdlib Require Import String Ascii List ZArith NArith Lia Bool.
From Stdlib Require Import DecimalString Permutation.
Import ListNotations.
Open Scope string_scope.

Set Implicit Arguments.
Set Warnings "-register-all".

(* ================================================================== *)
(** * Part I: definitions *)
(* ================================================================== *)

(** ** Characters and buffers *)

Definition Buffer := list ascii.

Definition code (c : ascii) : Z := Z.of_N (N_of_ascii c).

Definition chr (z : Z) : ascii := ascii_of_N (Z.to_N (z mod 256)).

Definition bytes_of_string (s : string) : Buffer := list_ascii_of_string s.

(** [String.prototype.replace(/c/g, r)] for a one-character pattern [c]:
    every occurrence of [c] is replaced by the text [r]. *)
Fixpoint replace_all (c : ascii) (r : string) (s : string) : string :=
  match s with
  | EmptyString => EmptyString
  | String x rest =>
      if Ascii.eqb x c then r ++ replace_all c r rest
      else String x (replace_all c r rest)
  end.

(** ** SHA-256 ([crypto.createHash('sha256')], FIPS 180-4)

    Words are 32-bit, held in [Z] with the wrap-around written out. *)
Module Sha256.

Definition w32 (x : Z) : Z := Z.land x 4294967295.
Definition add32 (x y : Z) : Z := w32 (x + y).
Definition not32 (x : Z) : Z := Z.lxor x 4294967295.
Definition rotr (n x : Z) : Z :=
  Z.lor (Z.shiftr x n) (w32 (Z.shiftl x (32 - n))).
Definition shr (n x : Z) : Z := Z.shiftr x n.

Definition Ch (x y z : Z) : Z := Z.lxor (Z.land x y) (Z.land (not32 x) z).
Definition Maj (x y z : Z) : Z :=
  Z.lxor (Z.lxor (Z.land x y) (Z.land x z)) (Z.land y z).
Definition Sigma0 (x : Z) : Z :=
  Z.lxor (Z.lxor (rotr 2 x) (rotr 13 x)) (rotr 22 x).
Definition Sigma1 (x : Z) : Z :=
  Z.lxor (Z.lxor (rotr 6 x) (rotr 11 x)) (rotr 25 x).
Definition sigma0 (x : Z) : Z :=
  Z.lxor (Z.lxor (rotr 7 x) (rotr 18 x)) (shr 3 x).
Definition sigma1 (x : Z) : Z :=
  Z.lxor (Z.lxor (rotr 17 x) (rotr 19 x)) (shr 10 x).

(** The constants are derived as the standard defines them: the first 32
    bits of the fractional parts of the cube roots (round constants) and of
    the square roots (initial hash value) of the first primes. *)
Definition is_prime (n : nat) : bool :=
  (1 <? n)%nat
  && forallb (fun d => negb (Nat.eqb (n mod d) 0)) (seq 2 (n - 2)).

Definition first_primes (count : nat) : list Z :=
  map Z.of_nat (firstn count (filter is_prime (seq 2 400))).

(** The integer cube root, one bit at a time from bit [bits - 1] down. *)
Fixpoint cube_root_bits (bits : nat) (n r : Z) : Z :=
  match bits with
  | O => r
  | S b =>
      let candidate := (r + 2 ^ Z.of_nat b)%Z in
      cube_root_bits b n
        (if (candidate * candidate * candidate <=? n)%Z then candidate else r)
  end.

Definition cube_root (n : Z) : Z := cube_root_bits 40 n 0.

Definition K : list Z :=
  Eval vm_compute in
    map (fun p => w32 (cube_root (p * 2 ^ 96))) (first_primes 64).

Definition H0 : list Z :=
  Eval vm_compute in
    map (fun p => w32 (Z.sqrt (p * 2 ^ 64))) (first_primes 8).

(** Big-endian bytes of [x], [n] of them. *)
Fixpoint be_bytes (n : nat) (x : Z) : list Z :=
  match n with
  | O => []
  | S k => Z.land (Z.shiftr x (8 * Z.of_nat k)) 255 :: be_bytes k x
  end.

(** The message followed by the bit 1, zeros up to 56 modulo 64 bytes, and
    the length in bits as a 64-bit big-endian integer. *)
Definition pad (msg : list Z) : list Z :=
  let len := Z.of_nat (length msg) in
  let zeros := Z.to_nat ((55 - len) mod 64) in
  msg ++ [128%Z] ++ repeat 0%Z zeros ++ be_bytes 8 (8 * len).

Fixpoint be_words (fuel : nat) (bs : list Z) : list Z :=
  match fuel, bs with
  | S k, b0 :: b1 :: b2 :: b3 :: rest =>
      (b0 * 16777216 + b1 * 65536 + b2 * 256 + b3)%Z :: be_words k rest
  | _, _ => []
  end.

Fixpoint blocks (fuel : nat) (ws : list Z) : list (list Z) :=
  match fuel, ws with
  | S k, _ :: _ => firstn 16 ws :: blocks k (skipn 16 ws)
  | _, _ => []
  end.

(** The message schedule: [n] more words after the ones in [w]. *)
Fixpoint schedule (n : nat) (w : list Z) : list Z :=
  match n with
  | O => w
  | S k =>
      let t := length w in
      let at_ (i : nat) := nth (t - i) w 0%Z in
      schedule k
        (w ++ [add32 (add32 (sigma1 (at_ 2%nat)) (at_ 7%nat))
                     (add32 (sigma0 (at_ 15%nat)) (at_ 16%nat))])
  end.

Record Working := mkW { wa : Z; wb : Z; wc : Z; wd : Z;
                        we : Z; wf : Z; wg : Z; wh : Z }.

Definition round (s : Working) (kw : Z * Z) : Working :=
  let (k, w) := kw in
  let t1 := add32 (add32 (add32 (wh s) (Sigma1 (we s)))
                         (add32 (Ch (we s) (wf s) (wg s)) k)) w in
  let t2 := add32 (Sigma0 (wa s)) (Maj (wa s) (wb s) (wc s)) in
  mkW (add32 t1 t2) (wa s) (wb s) (wc s) (add32 (wd s) t1) (we s) (wf s) (wg s).

Definition of_list (h : list Z) : Working :=
  let g (i : nat) := nth i h 0%Z in
  mkW (g 0%nat) (g 1%nat) (g 2%nat) (g 3%nat) (g 4%nat) (g 5%nat) (g 6%nat) (g 7%nat).

Definition to_list (s : Working) : list Z :=
  [wa s; wb s; wc s; wd s; we s; wf s; wg s; wh s].

Definition compress (h : list Z) (block : list Z) : list Z :=
  let w := schedule 48 block in
  let s := fold_left round (combine K w) (of_list h) in
  map (fun p : Z * Z => add32 (fst p) (snd p)) (combine h (to_list s)).

Definition digest_bytes (msg : list Z) : list Z :=
  let padded := pad msg in
  let ws := be_words (length padded) padded in
  flat_map (be_bytes 4) (fold_left compress (blocks (length ws) ws) H0).

(** [createHash('sha256').update(s).digest()]: the 32 bytes of the digest. *)
Definition sha256 (s : string) : Buffer :=
  map chr (digest_bytes (map code (bytes_of_string s))).

End Sha256.

(** ** Base64 ([Buffer.prototype.toString('base64')], RFC 4648 section 4) *)
Module Base64.

Definition alphabet : string :=
  "ABCDEFGHIJKLMNOPQRSTUVWXYZabcdefghijklmnopqrstuvwxyz0123456789+/".

(** The URL and filename safe alphabet of RFC 4648 section 5. *)
Definition alphabet_url : string :=
  "ABCDEFGHIJKLMNOPQRSTUVWXYZabcdefghijklmnopqrstuvwxyz0123456789-_".

Definition digit (table : string) (i : Z) : ascii :=
  match String.get (Z.to_nat i) table with
  | Some c => c
  | None => "="%char
  end.

Definition sextet1 (a : ascii) : Z := Z.shiftr (code a) 2.
Definition sextet2 (a b : ascii) : Z :=
  Z.lor (Z.shiftl (Z.land (code a) 3) 4) (Z.shiftr (code b) 4).
Definition sextet3 (b c : ascii) : Z :=
  Z.lor (Z.shiftl (Z.land (code b) 15) 2) (Z.shiftr (code c) 6).
Definition sextet4 (c : ascii) : Z := Z.land (code c) 63.

Definition zero : ascii := Ascii.zero.

(** Three bytes give four digits; a last group of one or two bytes is
    completed with zero bits and one or two digits are replaced by [pad]. *)
Fixpoint encode_with (table : string) (pad : string) (bs : Buffer) : string :=
  match bs with
  | [] => EmptyString
  | [a] =>
      String (digit table (sextet1 a))
        (String (digit table (sextet2 a zero)) (pad ++ pad))
  | [a; b] =>
      String (digit table (sextet1 a))
        (String (digit table (sextet2 a b))
           (String (digit table (sextet3 b zero)) pad))
  | a :: b :: c :: rest =>
      String (digit table (sextet1 a))
        (String (digit table (sextet2 a b))
           (String (digit table (sextet3 b c))
              (String (digit table (sextet4 c))
                 (encode_with table pad rest))))
  end.

(** [buf.toString('base64')]: the standard alphabet, padded with [=]. *)
Definition base64 (bs : Buffer) : string := encode_with alphabet "=" bs.

(** The specification's "base64url-no-padding": the URL-safe alphabet and
    no padding characters. *)
Definition base64url_nopad (bs : Buffer) : string :=
  encode_with alphabet_url EmptyString bs.

End Base64.

Definition hex_digits : string := "0123456789abcdef".

Definition hex_digit (i : Z) : ascii :=
  match String.get (Z.to_nat i) hex_digits with
  | Some c => c
  | None => "0"%char
  end.

(** [buf.toString('hex')]. *)
Fixpoint to_hex (bs : Buffer) : string :=
  match bs with
  | [] => EmptyString
  | b :: rest =>
      String (hex_digit (Z.shiftr (code b) 4))
        (String (hex_digit (Z.land (code b) 15)) (to_hex rest))
  end.

(** ** The PKCE generator ([SlackAuthProvider.generatePkce]) *)

Record Pkce := { verifier : string; challenge : string }.

(** The three [uuidv4()] results are the generator's only randomness; they
    are passed in, in the order of the calls. *)
Definition generatePkce (u1 u2 u3 : string) : Pkce :=
  let verifier := u1 ++ u2 ++ u3 in
  let challenge :=
    replace_all "="%char EmptyString
      (replace_all "/"%char "_"
         (replace_all "+"%char "-"
            (Base64.base64 (Sha256.sha256 verifier)))) in
  {| verifier := verifier; challenge := challenge |}.

(** The specification's fixed transform "S256":
    base64url-no-padding(SHA-256(verifier)). *)
Definition S256 (verifier : string) : string :=
  Base64.base64url_nopad (Sha256.sha256 verifier).

Definition is_lower_hex (c : ascii) : bool :=
  let n := code c in
  ((48 <=? n) && (n <=? 57) || (97 <=? n) && (n <=? 102))%Z.

(** The textual form [uuidv4()] returns: lower-case hexadecimal digits in
    groups of 8-4-4-4-12 separated by hyphens, 36 characters. *)
Fixpoint uuid_shape_from (i : nat) (s : string) : bool :=
  match s with
  | EmptyString => Nat.eqb i 36
  | String c rest =>
      (if Nat.eqb i 8 || Nat.eqb i 13 || Nat.eqb i 18 || Nat.eqb i 23
       then Ascii.eqb c "-"%char else is_lower_hex c)
      && uuid_shape_from (S i) rest
  end.

Definition uuid_shape (s : string) : bool := uuid_shape_from 0 s.

(** The "unreserved" characters of RFC 3986, the alphabet RFC 7636 allows
    in a code verifier: letters, digits, [-], [.], [_] and [~]. *)
Definition unreserved (c : ascii) : bool :=
  let n := code c in
  ((65 <=? n) && (n <=? 90) || (97 <=? n) && (n <=? 122)
   || (48 <=? n) && (n <=? 57)
   || (n =? 45) || (n =? 46) || (n =? 95) || (n =? 126))%Z.

(** ** JavaScript values, exceptions and maps *)

Record JsError := mkError { error_name : string; message : string }.

Definition Error (msg : string) : JsError := mkError "Error" msg.
Definition SyntaxError (msg : string) : JsError := mkError "SyntaxError" msg.
Definition TypeError (msg : string) : JsError := mkError "TypeError" msg.

(** [Error.prototype.toString], as used by ['...' + error]. *)
Definition error_toString (e : JsError) : string :=
  if String.eqb (error_name e) "" then message e
  else if String.eqb (message e) "" then error_name e
  else error_name e ++ ": " ++ message e.

Inductive Completion (A : Type) : Type :=
| Return (a : A)
| Throw (e : JsError).
Arguments Throw {A} e.

(** The values [JSON.parse] produces.  Numbers are kept as integers: no
    operation of the provider looks inside one. *)
Inductive JSON : Type :=
| JNull
| JBool (b : bool)
| JNumber (z : Z)
| JString (s : string)
| JArray (items : list JSON)
| JObject (members : list (string * JSON)).

Definition string_of_nat (n : nat) : string :=
  NilEmpty.string_of_uint (Nat.to_uint n).

Fixpoint indexed (A : Type) (i : nat) (l : list A) : list (string * A) :=
  match l with
  | [] => []
  | x :: rest => (string_of_nat i, x) :: indexed (S i) rest
  end.

(** [Object.entries(v)]: the own enumerable string-keyed properties.  A
    string is indexed character by character (its UTF-16 units, which for
    ASCII text are the characters of the model). *)
Definition Object_entries (v : JSON) : Completion (list (string * JSON)) :=
  match v with
  | JNull => Throw (TypeError "Cannot convert undefined or null to object")
  | JBool _ | JNumber _ => Return []
  | JString s =>
      Return (indexed 0
        (map (fun c => JString (String c EmptyString)) (list_ascii_of_string s)))
  | JArray items => Return (indexed 0 items)
  | JObject members => Return members
  end.

(** A [Map] with string keys: [set] on a present key replaces the value in
    place, on a new key appends, so that iteration follows insertion order. *)
Module JsMap.

Definition t (V : Type) := list (string * V).

Definition empty (V : Type) : t V := [].

Fixpoint get (V : Type) (k : string) (m : t V) : option V :=
  match m with
  | [] => None
  | (k', v) :: rest => if String.eqb k' k then Some v else get k rest
  end.

Fixpoint set (V : Type) (k : string) (v : V) (m : t V) : t V :=
  match m with
  | [] => [(k, v)]
  | (k', v') :: rest =>
      if String.eqb k' k then (k', v) :: rest else (k', v') :: set k v rest
  end.

Fixpoint delete (V : Type) (k : string) (m : t V) : t V :=
  match m with
  | [] => []
  | (k', v') :: rest =>
      if String.eqb k' k then delete k rest else (k', v') :: delete k rest
  end.

Definition size (V : Type) (m : t V) : nat := length m.

Definition entries (V : Type) (m : t V) : list (string * V) := m.

End JsMap.

(** ** Ordinary objects filled by assignment

    A [JObject] stands for an object by its own enumerable properties, in
    the order [JSON.stringify] and [Object.entries] visit them. *)

Definition decimal_digit (c : ascii) : bool :=
  ((48 <=? code c) && (code c <=? 57))%Z.

Fixpoint read_decimal (acc : N) (s : string) : option N :=
  match s with
  | EmptyString => Some acc
  | String c rest =>
      if decimal_digit c
      then read_decimal (10 * acc + Z.to_N (code c - 48)) rest
      else None
  end.

Definition string_of_N (n : N) : string :=
  NilEmpty.string_of_uint (N.to_uint n).

(** A property key that is an array index: the canonical decimal text of an
    integer below [2^32 - 1] (no sign, no leading zero). *)
Definition array_index (k : string) : option N :=
  match k with
  | EmptyString => None
  | String _ _ =>
      match read_decimal 0 k with
      | Some n =>
          if String.eqb (string_of_N n) k && (n <? 4294967295)%N
          then Some n else None
      | None => None
      end
  end.

(** [o[k] = v] on an object that started as the literal [{}], as a change
    of its own properties (listed in creation order).  The key [__proto__]
    reaches the setter inherited from [Object.prototype]: it changes the
    prototype (or does nothing, for a primitive value) and creates no own
    property.  Any other key creates the property, or replaces its value
    where it stands. *)
Definition object_assign (k : string) (v : JSON) (own : list (string * JSON))
  : list (string * JSON) :=
  if String.eqb k "__proto__" then own else JsMap.set k v own.

(** The entries whose assignment creates a property. *)
Definition kept (entry : string * JSON) : bool :=
  negb (String.eqb (fst entry) "__proto__").

Fixpoint insert_by_index (e : N * (string * JSON)) (l : list (N * (string * JSON)))
  : list (N * (string * JSON)) :=
  match l with
  | [] => [e]
  | x :: rest =>
      if (fst e <? fst x)%N then e :: l else x :: insert_by_index e rest
  end.

Definition with_index (m : string * JSON) : list (N * (string * JSON)) :=
  match array_index (fst m) with
  | Some n => [(n, m)]
  | None => []
  end.

Definition named (m : string * JSON) : bool :=
  match array_index (fst m) with
  | Some _ => false
  | None => true
  end.

(** The order in which an object's own properties are enumerated: the
    array indices in ascending numeric order, then the other keys in
    creation order. *)
Definition own_enumerable (own : list (string * JSON)) : list (string * JSON) :=
  (map snd (fold_right insert_by_index [] (flat_map with_index own))
   ++ filter named own)%list.

(** The object the loop [for (const [k, v] of entries) o[k] = v] leaves,
    starting from [{}]. *)
Definition object_from_entries (entries : list (string * JSON)) : JSON :=
  JObject (own_enumerable
             (fold_left (fun own entry => object_assign (fst entry) (snd entry) own)
                        entries [])).

(** ** The records of the provider *)

(** [OAuthClientInformationFull]: the two members the provider reads, and
    the remaining client metadata, opaque to it. *)
Record OAuthClientInformationFull := {
  client_id : string;
  redirect_uris : list string;
  metadata : list (string * JSON)
}.

(** The same client as the object the registry holds and serialises. *)
Definition client_json (c : OAuthClientInformationFull) : JSON :=
  JObject (("client_id", JString (client_id c))
           :: ("redirect_uris", JArray (map JString (redirect_uris c)))
           :: metadata c).

(** [AuthorizationParams], the members [authorize] reads; [state] is
    optional. *)
Record AuthorizationParams := {
  params_state : option string;
  codeChallenge : string
}.

(** [SessionData], with the members [authorize] fills in.  A member read
    from a place that may be [undefined] is an [option]. *)
Record SessionData := {
  clientId : string;
  state : string;
  codeVerifier : string;
  redirectUri : option string;
  originalState : option string;
  clientCodeChallenge : string;
  clientCodeChallengeMethod : string
}.

(** The options handed to the installer's [generateInstallUrl]. *)
Record InstallURLOptions := {
  scopes : list string;
  opt_redirectUri : option string
}.

(** A member of [req.query]: a string, a repeated parameter or a nested
    object; an absent member is [undefined]. *)
Inductive QueryValue : Type :=
| QString (s : string)
| QArray (items : list string)
| QObject (members : list (string * string)).

Record Request := { query : list (string * QueryValue) }.

Definition query_member (k : string) (req : Request) : option QueryValue :=
  JsMap.get k (query req).

(** What [handleCallback] resolves to. *)
Record CallbackResult := {
  redirectUrl : string;
  success : bool;
  error : option string
}.

(** What the provider does to the outside, in order: console lines, the
    user-agent's response, and the calls made to the installer. *)
Inductive Event : Type :=
| ConsoleLog (args : list string)
| ConsoleError (label : string) (err : JsError)
| Redirect (url : string)
| StatusSend (status : Z) (body : string)
| InstallUrlRequested (options : InstallURLOptions)
| InstallerCallback (req : Request).

(** The provider's two maps, the persisted clients file (absent, or its
    content) and the events so far, oldest first. *)
Record World := mkWorld {
  _clientsMap : JsMap.t JSON;
  _sessionStore : JsMap.t SessionData;
  disk : option string;
  trace : list Event
}.

(** The state right after [new SlackAuthProvider()]: both maps empty. *)
Definition constructor (file : option string) : World :=
  mkWorld (JsMap.empty JSON) (JsMap.empty SessionData) file [].

(** ** The interfaces the provider consumes *)

(** [JSON.parse] and [JSON.stringify(value, null, space)].  [JSON_parse]
    is expected to list an object's members in property order, a repeated
    key once. *)
Class JsonRuntime := {
  JSON_parse : string -> Completion JSON;
  JSON_stringify : JSON -> nat -> string
}.

(** The third-party [InstallProvider]: the authorization URL for the given
    options, and the completion of an upstream callback. *)
Class InstallProvider := {
  generateInstallUrl : InstallURLOptions -> Completion string;
  installer_handleCallback : Request -> Completion unit
}.

(** How a call of [fs.writeFile] (flag [w]: truncate, then write) ends: all
    data written; refused before the file is opened; or stopped after
    [written] characters, the file already truncated. *)
Inductive WriteOutcome : Type :=
| WriteCompleted
| WriteRefused (e : JsError)
| WriteInterrupted (written : nat) (e : JsError).

(** ** The monad of provider code *)

Definition Js (A : Type) : Type := World -> Completion A * World.

Definition ret (A : Type) (a : A) : Js A := fun w => (Return a, w).

Definition throw (A : Type) (e : JsError) : Js A := fun w => (Throw e, w).
Arguments throw {A} e.

Definition bind (A B : Type) (m : Js A) (k : A -> Js B) : Js B :=
  fun w =>
    match m w with
    | (Return a, w') => k a w'
    | (Throw e, w') => (Throw e, w')
    end.

(** [try { body } catch (e) { handler }]. *)
Definition try_catch (A : Type) (body : Js A) (handler : JsError -> Js A) : Js A :=
  fun w =>
    match body w with
    | (Return a, w') => (Return a, w')
    | (Throw e, w') => handler e w'
    end.

Definition lift (A : Type) (c : Completion A) : Js A := fun w => (c, w).

Definition gets (A : Type) (f : World -> A) : Js A := fun w => (Return (f w), w).

Definition modify (f : World -> World) : Js unit := fun w => (Return tt, f w).

Declare Scope js_scope.
Delimit Scope js_scope with js.
Notation "x <- m ;; k" := (bind m (fun x => k))
  (at level 61, m at next level, right associativity) : js_scope.
Notation "m ;; k" := (bind m (fun _ => k))
  (at level 61, right associativity) : js_scope.
Open Scope js_scope.

Fixpoint for_of (A : Type) (l : list A) (body : A -> Js unit) : Js unit :=
  match l with
  | [] => ret tt
  | x :: rest => body x ;; for_of rest body
  end.

Definition emit (e : Event) : Js unit :=
  modify (fun w => mkWorld (_clientsMap w) (_sessionStore w) (disk w) (trace w ++ [e])).

Definition console_log (args : list string) : Js unit := emit (ConsoleLog args).

Definition console_error (label : string) (err : JsError) : Js unit :=
  emit (ConsoleError label err).

Definition set_clientsMap (m : JsMap.t JSON) : Js unit :=
  modify (fun w => mkWorld m (_sessionStore w) (disk w) (trace w)).

Definition set_sessionStore (m : JsMap.t SessionData) : Js unit :=
  modify (fun w => mkWorld (_clientsMap w) m (disk w) (trace w)).

Definition set_disk (d : option string) : Js unit :=
  modify (fun w => mkWorld (_clientsMap w) (_sessionStore w) d (trace w)).

(** *** The file system, for the one file [registered_clients.json] *)

(** [fs.access(path)]: rejects when the file does not exist. *)
Definition fs_access : Js unit :=
  d <- gets disk ;;
  match d with
  | Some _ => ret tt
  | None => throw (Error "ENOENT: no such file or directory, access")
  end.

Definition fs_readFile : Js string :=
  d <- gets disk ;;
  match d with
  | Some content => ret content
  | None => throw (Error "ENOENT: no such file or directory, open")
  end.

Definition fs_writeFile (outcome : WriteOutcome) (data : string) : Js unit :=
  match outcome with
  | WriteCompleted => set_disk (Some data)
  | WriteRefused e => throw e
  | WriteInterrupted written e =>
      set_disk (Some (substring 0 written data)) ;; throw e
  end.

(** ** [SlackAuthProvider]: session store *)

Definition _storeSessionData (state : string) (data : SessionData) : Js unit :=
  if String.eqb state "" then
    throw (Error "Cannot store session data: state parameter is missing")
  else
    store <- gets _sessionStore ;;
    set_sessionStore (JsMap.set state data store) ;;
    console_log ["Session data stored for state: " ++ state].

Definition _getSessionData (state : string) : Js (option SessionData) :=
  store <- gets _sessionStore ;;
  ret (JsMap.get state store).

Definition _clearSessionData (state : string) : Js unit :=
  store <- gets _sessionStore ;;
  set_sessionStore (JsMap.delete state store) ;;
  console_log ["Session data cleared for state: " ++ state].

(** ** [SlackAuthProvider]: client registry *)

Definition _loadClientsFromFile `{JsonRuntime} : Js unit :=
  try_catch
    (try_catch fs_access
       (fun _ =>
          console_log ["No saved clients file found. Starting with empty clients list."] ;;
          throw (Error "File not found")) ;;
     fileContent <- fs_readFile ;;
     clientsData <- lift (JSON_parse fileContent) ;;
     set_clientsMap (JsMap.empty JSON) ;;
     entries <- lift (Object_entries clientsData) ;;
     for_of entries
       (fun entry =>
          clients <- gets _clientsMap ;;
          set_clientsMap (JsMap.set (fst entry) (snd entry) clients)) ;;
     clients <- gets _clientsMap ;;
     console_log ["Loaded " ++ string_of_nat (JsMap.size clients)
                  ++ " registered clients from file."])
    (fun err =>
       if negb (String.eqb (message err) "File not found") then
         console_error "Error loading clients from file:" err
       else ret tt).

(** [clientsObject] is filled from the map's entries by assignment, one
    property per client id.  The outcome of the one [fs.writeFile] call is
    the argument [outcome]. *)
Definition _saveClientsToFile `{JsonRuntime} (outcome : WriteOutcome) : Js unit :=
  try_catch
    (clients <- gets _clientsMap ;;
     let clientsObject := object_from_entries (JsMap.entries clients) in
     fs_writeFile outcome (JSON_stringify clientsObject 2) ;;
     console_log ["Saved " ++ string_of_nat (JsMap.size clients)
                  ++ " registered clients to file."])
    (fun err =>
       console_error "Error saving clients to file:" err ;;
       throw err).

(** [clientsStore.getClient]. *)
Definition getClient (clientId : string) : Js (option JSON) :=
  console_log ["Getting client "; clientId] ;;
  clients <- gets _clientsMap ;;
  ret (JsMap.get clientId clients).

(** [clientsStore.registerClient].  The save is started and not awaited;
    its rejection is handled by the [catch] attached to it.  [outcome] is
    how that save's write ends. *)
Definition registerClient `{JsonRuntime}
    (client : OAuthClientInformationFull) (outcome : WriteOutcome)
  : Js OAuthClientInformationFull :=
  clients <- gets _clientsMap ;;
  set_clientsMap (JsMap.set (client_id client) (client_json client) clients) ;;
  console_log ["Registered client "; client_id client] ;;
  try_catch (_saveClientsToFile outcome)
    (fun err => console_error "Failed to save client registration:" err) ;;
  ret client.

(** ** [SlackAuthProvider]: the OAuth operations *)

(** The random draws of one [authorize] call: three [uuidv4()] results and
    the buffer [crypto.randomBytes(32)] returns. *)
Record Entropy := {
  uuid1 : string;
  uuid2 : string;
  uuid3 : string;
  randomBytes : Buffer
}.

Definition authorize `{InstallProvider}
    (client : OAuthClientInformationFull) (params : AuthorizationParams)
    (rnd : Entropy) : Js unit :=
  try_catch
    (let redirectUri := nth_error (redirect_uris client) 0 in
     let pkce := generatePkce (uuid1 rnd) (uuid2 rnd) (uuid3 rnd) in
     let state := to_hex (randomBytes rnd) in
     let sessionData :=
       {| clientId := client_id client;
          state := state;
          codeVerifier := verifier pkce;
          redirectUri := redirectUri;
          originalState := params_state params;
          clientCodeChallenge := codeChallenge params;
          clientCodeChallengeMethod := "S256" |} in
     _storeSessionData state sessionData ;;
     let options := {| scopes := ["chat:write"]; opt_redirectUri := redirectUri |} in
     emit (InstallUrlRequested options) ;;
     authUrl <- lift (generateInstallUrl options) ;;
     emit (Redirect authUrl))
    (fun error =>
       console_error "Authorization setup error:" error ;;
       emit (StatusSend 500
               ("Failed to initialize authentication: " ++ error_toString error))).

(** [OAuthTokens], as far as the model needs them. *)
Record OAuthTokens := { access_token : string; token_type : string }.

Definition challengeForAuthorizationCode
    (client : OAuthClientInformationFull) (authorizationCode : string)
  : Completion string :=
  Throw (Error "Method not implemented.").

Definition exchangeAuthorizationCode
    (client : OAuthClientInformationFull) (authorizationCode : string)
  : Completion OAuthTokens :=
  Throw (Error "Method not implemented.").

Definition exchangeRefreshToken
    (client : OAuthClientInformationFull) (refreshToken : string)
    (scopes : option (list string)) : Completion OAuthTokens :=
  Throw (Error "Method not implemented.").

Definition verifyAccessToken (token : string) : Completion unit :=
  Throw (Error "Method not implemented.").

Definition revokeToken
    (client : OAuthClientInformationFull) (token : string) : Completion unit :=
  Throw (Error "Method not implemented.").

(** [this._sessionStore.get(state as string)] for the member read from the
    query: the store's keys are strings, so an absent member, a repeated
    parameter or a nested object is the key of no entry. *)
Definition session_key (v : option QueryValue) : option string :=
  match v with
  | Some (QString s) => Some s
  | _ => None
  end.

Definition handleCallback `{InstallProvider} (req : Request)
  : Js (option CallbackResult) :=
  try_catch
    (let state := query_member "state" req in
     sessionData <-
       match session_key state with
       | Some s => _getSessionData s
       | None => ret None
       end ;;
     match sessionData with
     | None =>
         ret (Some {| redirectUrl := ""; success := false;
                      error := Some "Invalid state parameter" |})
     | Some _ =>
         emit (InstallerCallback req) ;;
         lift (installer_handleCallback req) ;;
         ret None
     end)
    (fun error =>
       console_error "Error handling callback:" error ;;
       ret (Some {| redirectUrl := ""; success := false;
                    error := Some "Failed to handle callback" |})).

(** ** [Tools.ts]: the tool dispatcher *)

Module Tools.

Definition GET_USER_DETAILS : string := "getUserDetails".
Definition GET_SLACK_CHANNELS : string := "getSlackChannels".

Record TenantConfiguration := { cfg_tenantId : string; slackToken : string }.

Definition exampleTenantConfiguration : list TenantConfiguration :=
  [ {| cfg_tenantId := "Bogdan"; slackToken := "" |};
    {| cfg_tenantId := "Omer"; slackToken := "" |} ].

(** [request.params.arguments] read as [GetSlacKChannelsRequest], the
    handler's own cast. *)
Record ToolArguments := { tenantId : option string }.

(** [request.params.context]: an optional bearer [token]. *)
Record ToolContext := { token : option string }.

Record CallToolParams := {
  name : string;
  arguments : option ToolArguments;
  context : option ToolContext
}.

Record TextContent := { type : string; text : string }.

Record CallToolResult := { content : list TextContent }.

Definition text_result (s : string) : CallToolResult :=
  {| content := [ {| type := "text"; text := s |} ] |}.

(** Modelled from the spec: the Token Store of [./auth/TokenStore.js], which
    is not among the sources.  "[get(token) -> identity | not-found]": a
    lookup that yields the identity bound to an issued token, or nothing. *)
Class TokenStore := {
  TokenData : Type;
  getToken : string -> option TokenData
}.

(** [new WebClient(token).conversations.list({})], reduced to the member
    [channels] of its result ([None]: the member is missing). *)
Class WebClient := {
  conversations_list : string -> Completion (option JSON)
}.

Definition nl : string := String (ascii_of_nat 10) EmptyString.

Definition user_details_text : string :=
  "User Details:" ++ nl ++
  "                Name: asdfasdf" ++ nl ++
  "                Email: asdfasdf" ++ nl ++
  "                UPN: asdfsdf".

(** [!s] for an optional string: [undefined] and the empty string. *)
Definition falsy (s : option string) : bool :=
  match s with
  | None => true
  | Some v => String.eqb v ""
  end.

(** [try { body } catch (error) { return text(prefix + error.message) }]:
    whatever [body] throws becomes an ordinary result.  Every value thrown
    in the model is an [Error], so the handler's fallback text for other
    thrown values ("Unknown error occurred") has no case here. *)
Definition soft (prefix : string) (body : Completion CallToolResult)
  : Completion CallToolResult :=
  match body with
  | Return r => Return r
  | Throw error => Return (text_result (prefix ++ message error))
  end.

(** The [getSlackChannels] branch.  Its [console.log(result)] writes to the
    console only and is left out. *)
Definition getSlackChannels `{JsonRuntime} `{WebClient} (params : CallToolParams)
  : Completion CallToolResult :=
  soft "Error getting channels: "
    (match arguments params with
     | None => Throw (Error "Tenant ID is required")
     | Some args =>
         if falsy (tenantId args) then Throw (Error "Tenant ID is required")
         else
           let tenant := match tenantId args with Some t => t | None => "" end in
           let slackToken :=
             option_map slackToken
               (find (fun config => String.eqb (cfg_tenantId config) tenant)
                     exampleTenantConfiguration) in
           if falsy slackToken then
             Throw (Error ("Slack token not found for tenant ID: " ++ tenant))
           else
             match conversations_list
                     (match slackToken with Some t => t | None => "" end) with
             | Throw e => Throw e
             | Return None => Throw (Error "No channels found")
             | Return (Some channels) =>
                 Return (text_result (JSON_stringify channels 0))
             end
     end).

Definition getUserDetails `{TokenStore} (params : CallToolParams)
  : Completion CallToolResult :=
  let sessionToken :=
    match context params with
    | Some c => token c
    | None => None
    end in
  soft "Error getting user details: "
    (if falsy sessionToken then Throw (Error "No authentication token provided")
     else
       match getToken (match sessionToken with Some t => t | None => "" end) with
       | None => Throw (Error "Invalid or expired session token")
       | Some _ => Return (text_result user_details_text)
       end).

(** The [CallToolRequestSchema] handler. *)
Definition callTool `{JsonRuntime} `{WebClient} `{TokenStore}
    (params : CallToolParams) : Completion CallToolResult :=
  if String.eqb (name params) GET_SLACK_CHANNELS then getSlackChannels params
  else if String.eqb (name params) GET_USER_DETAILS then getUserDetails params
  else Throw (Error ("Unknown tool: " ++ name params)).

End Tools.

(** ** Predicates used in the statements *)

(** The state [authorize] generates:
    [crypto.randomBytes(32).toString('hex')]. *)
Definition internal_state (rnd : Entropy) : string := to_hex (randomBytes rnd).

(** [client.redirect_uris[0]]; [None] is [undefined]. *)
Definition first_redirect_uri (client : OAuthClientInformationFull) : option string :=
  nth_error (redirect_uris client) 0.

(** The argument of the one [generateInstallUrl] call in [authorize]. *)
Definition install_options (client : OAuthClientInformationFull) : InstallURLOptions :=
  {| scopes := ["chat:write"]; opt_redirectUri := first_redirect_uri client |}.

(** The [sessionData] object [authorize] builds. *)
Definition session_of (client : OAuthClientInformationFull)
    (params : AuthorizationParams) (rnd : Entropy) : SessionData :=
  {| clientId := client_id client;
     state := internal_state rnd;
     codeVerifier := uuid1 rnd ++ uuid2 rnd ++ uuid3 rnd;
     redirectUri := first_redirect_uri client;
     originalState := params_state params;
     clientCodeChallenge := codeChallenge params;
     clientCodeChallengeMethod := "S256" |}.

(** The events that leave the process: the response to the user-agent and
    the calls to the installer (console lines stay inside). *)
Definition outward (e : Event) : bool :=
  match e with
  | ConsoleLog _ | ConsoleError _ _ => false
  | _ => true
  end.

(** Every character of [s] satisfies [p]. *)
Fixpoint all_chars (p : ascii -> bool) (s : string) : bool :=
  match s with
  | EmptyString => true
  | String c rest => p c && all_chars p rest
  end.

(** The three replacements [generatePkce] applies to the base64 text. *)
Definition url_safe (s : string) : string :=
  replace_all "="%char EmptyString
    (replace_all "/"%char "_" (replace_all "+"%char "-" s)).

(** The text [_saveClientsToFile] hands to [fs.writeFile]: the object
    filled from the registry's entries by assignment, serialised with an
    indentation of two. *)
Definition registry_text `{JsonRuntime} (w : World) : string :=
  JSON_stringify (object_from_entries (JsMap.entries (_clientsMap w))) 2.

(** The map the loop of [_loadClientsFromFile] builds from the entries. *)
Definition registry_of_entries (entries : list (string * JSON)) : JsMap.t JSON :=
  fold_left (fun m entry => JsMap.set (fst entry) (snd entry) m) entries (JsMap.empty JSON).

(** [context?.token] of a tool call. *)
Definition session_token (params : Tools.CallToolParams) : option string :=
  match Tools.context params with
  | Some c => Tools.token c
  | None => None
  end.

(** The console line an error caught by [_loadClientsFromFile] leaves. *)
Definition load_error_lines (e : JsError) : list Event :=
  if negb (String.eqb (message e) "File not found")
  then [ConsoleError "Error loading clients from file:" e] else [].

(** The response events: what the user-agent receives. *)
Definition is_response (e : Event) : bool :=
  match e with
  | Redirect _ | StatusSend _ _ => true
  | _ => false
  end.

Definition responses (t : list Event) : list Event := filter is_response t.

(** The two results [handleCallback] returns on its failure paths. *)
Definition invalid_state_result : CallbackResult :=
  {| redirectUrl := ""; success := false; error := Some "Invalid state parameter" |}.

Definition failed_callback_result : CallbackResult :=
  {| redirectUrl := ""; success := false; error := Some "Failed to handle callback" |}.

(** ** Sample environments

    Concrete clients, draws and collaborators, on which the general
    statements are instantiated and the code is run. *)

(** A [JSON.stringify] and a [JSON.parse] for the samples: objects, arrays,
    strings, integers, [true], [false] and [null]; a [\u] escape and a number
    with a fraction or an exponent are refused. *)
Module SampleJson.

Definition dquote : ascii := ascii_of_nat 34.
Definition backslash : ascii := ascii_of_nat 92.

Definition escape_char (c : ascii) : string :=
  let short (x : ascii) := String backslash (String x EmptyString) in
  if Ascii.eqb c dquote then short dquote
  else if Ascii.eqb c backslash then short backslash
  else if (code c =? 8)%Z then short "b"%char
  else if (code c =? 9)%Z then short "t"%char
  else if (code c =? 10)%Z then short "n"%char
  else if (code c =? 12)%Z then short "f"%char
  else if (code c =? 13)%Z then short "r"%char
  else if (code c <? 32)%Z then
    String backslash
      ("u00" ++ String (hex_digit (Z.shiftr (code c) 4))
                  (String (hex_digit (Z.land (code c) 15)) EmptyString))
  else String c EmptyString.

Fixpoint escape (s : string) : string :=
  match s with
  | EmptyString => EmptyString
  | String c rest => escape_char c ++ escape rest
  end.

Definition quoted (s : string) : string :=
  String dquote (escape s ++ String dquote EmptyString).

Definition decimal (z : Z) : string := NilZero.string_of_int (Z.to_int z).

Fixpoint spaces (n : nat) : string :=
  match n with
  | O => EmptyString
  | S k => String " "%char (spaces k)
  end.

Definition newline : string := String (ascii_of_nat 10) EmptyString.

(** The text between the brackets of a non-empty array or object whose
    members are already written: one per line when [space] is positive. *)
Definition block (space depth : nat) (opening closing : string)
    (parts : list string) : string :=
  match parts with
  | [] => opening ++ closing
  | _ =>
      if Nat.eqb space 0 then opening ++ String.concat "," parts ++ closing
      else
        opening ++ newline
        ++ String.concat ("," ++ newline)
             (map (fun p => spaces (space * S depth) ++ p) parts)
        ++ newline ++ spaces (space * depth) ++ closing
  end.

Fixpoint stringify_at (space depth : nat) (v : JSON) : string :=
  match v with
  | JNull => "null"
  | JBool true => "true"
  | JBool false => "false"
  | JNumber z => decimal z
  | JString s => quoted s
  | JArray items =>
      block space depth "[" "]" (map (stringify_at space (S depth)) items)
  | JObject members =>
      block space depth "{" "}"
        (map (fun m : string * JSON =>
                quoted (fst m) ++ (if Nat.eqb space 0 then ":" else ": ")
                ++ stringify_at space (S depth) (snd m))
             members)
  end.

Definition stringify (v : JSON) (space : nat) : string := stringify_at space 0 v.

Definition is_ws (c : ascii) : bool :=
  ((code c =? 32) || (code c =? 9) || (code c =? 10) || (code c =? 13))%Z.

Fixpoint skip_ws (s : string) : string :=
  match s with
  | String c rest => if is_ws c then skip_ws rest else s
  | EmptyString => EmptyString
  end.

Definition unescape (c : ascii) : option ascii :=
  if Ascii.eqb c dquote then Some dquote
  else if Ascii.eqb c backslash then Some backslash
  else if Ascii.eqb c "/" then Some "/"%char
  else if Ascii.eqb c "b" then Some (ascii_of_nat 8)
  else if Ascii.eqb c "t" then Some (ascii_of_nat 9)
  else if Ascii.eqb c "n" then Some (ascii_of_nat 10)
  else if Ascii.eqb c "f" then Some (ascii_of_nat 12)
  else if Ascii.eqb c "r" then Some (ascii_of_nat 13)
  else None.

(** The characters of a string literal after its opening quote, and the
    text after its closing quote. *)
Fixpoint read_chars (s : string) : option (string * string) :=
  match s with
  | EmptyString => None
  | String c rest =>
      if Ascii.eqb c dquote then Some (EmptyString, rest)
      else if Ascii.eqb c backslash then
        match rest with
        | String e rest' =>
            match unescape e, read_chars rest' with
            | Some c', Some (t, r) => Some (String c' t, r)
            | _, _ => None
            end
        | EmptyString => None
        end
      else if (code c <? 32)%Z then None
      else
        match read_chars rest with
        | Some (t, r) => Some (String c t, r)
        | None => None
        end
  end.

Definition is_digit (c : ascii) : bool := ((48 <=? code c) && (code c <=? 57))%Z.

Fixpoint read_digits (acc : Z) (s : string) : Z * string :=
  match s with
  | String c rest =>
      if is_digit c then read_digits (10 * acc + (code c - 48)) rest else (acc, s)
  | EmptyString => (acc, s)
  end.

(** An integer literal: an optional minus sign and digits without a
    leading zero; a fraction or an exponent is refused. *)
Definition read_number (s : string) : option (Z * string) :=
  let (negative, body) :=
    match s with
    | String "-" rest => (true, rest)
    | _ => (false, s)
    end in
  match body with
  | String c rest =>
      if is_digit c then
        let (n, r) := read_digits 0 body in
        let leading_zero :=
          Ascii.eqb c "0" && match rest with
                             | String d _ => is_digit d
                             | EmptyString => false
                             end in
        let continues :=
          match r with
          | String d _ => Ascii.eqb d "." || Ascii.eqb d "e" || Ascii.eqb d "E"
          | EmptyString => false
          end in
        if leading_zero || continues then None
        else Some (if negative then (- n)%Z else n, r)
      else None
  | EmptyString => None
  end.

Fixpoint strip (p s : string) : option string :=
  match p, s with
  | EmptyString, _ => Some s
  | String a p', String b s' => if Ascii.eqb a b then strip p' s' else None
  | String _ _, EmptyString => None
  end.

Fixpoint read_value (fuel : nat) (s : string) : option (JSON * string) :=
  match fuel with
  | O => None
  | S f =>
      match skip_ws s with
      | EmptyString => None
      | String c rest as t =>
          if Ascii.eqb c dquote then
            match read_chars rest with
            | Some (str, r) => Some (JString str, r)
            | None => None
            end
          else if Ascii.eqb c "[" then
            match skip_ws rest with
            | String "]" r => Some (JArray [], r)
            | _ =>
                match read_items f rest with
                | Some (items, r) => Some (JArray items, r)
                | None => None
                end
            end
          else if Ascii.eqb c "{" then
            match skip_ws rest with
            | String "}" r => Some (JObject [], r)
            | _ =>
                match read_members f rest with
                | Some (members, r) =>
                    Some (JObject
                            (fold_left (fun acc m => JsMap.set (fst m) (snd m) acc)
                                       members []), r)
                | None => None
                end
            end
          else
            match strip "null" t, strip "true" t, strip "false" t with
            | Some r, _, _ => Some (JNull, r)
            | _, Some r, _ => Some (JBool true, r)
            | _, _, Some r => Some (JBool false, r)
            | _, _, _ =>
                match read_number t with
                | Some (n, r) => Some (JNumber n, r)
                | None => None
                end
            end
      end
  end
with read_items (fuel : nat) (s : string) : option (list JSON * string) :=
  match fuel with
  | O => None
  | S f =>
      match read_value f s with
      | Some (v, r) =>
          match skip_ws r with
          | String "," r' =>
              match read_items f r' with
              | Some (vs, r'') => Some (v :: vs, r'')
              | None => None
              end
          | String "]" r' => Some ([v], r')
          | _ => None
          end
      | None => None
      end
  end
with read_members (fuel : nat) (s : string)
  : option (list (string * JSON) * string) :=
  match fuel with
  | O => None
  | S f =>
      match skip_ws s with
      | String c rest =>
          if Ascii.eqb c dquote then
            match read_chars rest with
            | Some (key, r) =>
                match skip_ws r with
                | String ":" r' =>
                    match read_value f r' with
                    | Some (v, r'') =>
                        match skip_ws r'' with
                        | String "," r3 =>
                            match read_members f r3 with
                            | Some (ms, r4) => Some ((key, v) :: ms, r4)
                            | None => None
                            end
                        | String "}" r3 => Some ([(key, v)], r3)
                        | _ => None
                        end
                    | None => None
                    end
                | _ => None
                end
            | None => None
            end
          else None
      | EmptyString => None
      end
  end.

Definition parse (text : string) : Completion JSON :=
  match read_value (2 * String.length text + 2) text with
  | Some (v, r) =>
      match skip_ws r with
      | EmptyString => Return v
      | _ => Throw (SyntaxError "Unexpected non-whitespace character after JSON")
      end
  | None => Throw (SyntaxError "Unexpected token or end of JSON input")
  end.

End SampleJson.

Definition sample_runtime : JsonRuntime :=
  {| JSON_parse := SampleJson.parse; JSON_stringify := SampleJson.stringify |}.

Definition sample_client : OAuthClientInformationFull :=
  {| client_id := "c1"; redirect_uris := ["https://a/cb"]; metadata := [] |}.

Definition sample_params : AuthorizationParams :=
  {| params_state := Some "orig123"; codeChallenge := "abc" |}.

Definition sample_entropy : Entropy :=
  {| uuid1 := "3f2b8c1e-9d4a-4e7b-8a6c-0f1e2d3c4b5a";
     uuid2 := "7c9e6679-7425-40de-944b-e07fc1f90ae7";
     uuid3 := "0e37df36-f698-41bd-b1d4-3a5c6e7f8091";
     randomBytes := map ascii_of_nat (seq 1 32) |}.

Definition other_entropy : Entropy :=
  {| uuid1 := "3f2b8c1e-9d4a-4e7b-8a6c-0f1e2d3c4b5a";
     uuid2 := "7c9e6679-7425-40de-944b-e07fc1f90ae7";
     uuid3 := "0e37df36-f698-41bd-b1d4-3a5c6e7f8091";
     randomBytes := map ascii_of_nat (seq 101 32) |}.

(** An installer that answers: the URL carries the scopes, the redirect URI
    and a state of the installer's own. *)
Definition answering_installer (own_state : string) : InstallProvider :=
  {| generateInstallUrl := fun options =>
       Return ("https://slack.com/oauth/v2/authorize?scope="
               ++ String.concat "," (scopes options)
               ++ "&state=" ++ own_state
               ++ "&redirect_uri="
               ++ match opt_redirectUri options with
                  | Some uri => uri
                  | None => ""
                  end);
     installer_handleCallback := fun _ => Return tt |}.

(** An installer whose calls all fail. *)
Definition failing_installer : InstallProvider :=
  {| generateInstallUrl := fun _ => Throw (Error "upstream unavailable");
     installer_handleCallback := fun _ => Throw (Error "upstream unavailable") |}.

Definition second_client : OAuthClientInformationFull :=
  {| client_id := "c2"; redirect_uris := ["https://b/cb"; "https://b/alt"];
     metadata := [("client_name", JString "second")] |}.


(** A token store that knows the one token [tok-1]. *)
Definition sample_tokens : Tools.TokenStore :=
  {| Tools.TokenData := string;
     Tools.getToken := fun t => if String.eqb t "tok-1" then Some "U123" else None |}.

Definition sample_web : Tools.WebClient :=
  {| Tools.conversations_list := fun _ => Return (Some (JArray [])) |}.

Definition callback_with_state (s : string) : Request :=
  {| query := [("code", QString "upstream-code"); ("state", QString s)] |}.

(** ** Predicates used in the further properties *)

(** The callback's state is the key of a stored session. *)
Definition session_found (req : Request) (w : World) : bool :=
  match session_key (query_member "state" req) with
  | Some s =>
      match JsMap.get s (_sessionStore w) with
      | Some _ => true
      | None => false
      end
  | None => false
  end.

(** No key occurs twice: what a [Map] guarantees, and what the model's
    lists keep (they start empty and change through [JsMap.set] and
    [JsMap.delete] only). *)
Definition keys_distinct (V : Type) (m : JsMap.t V) : Prop := NoDup (map fst m).

(** The text of the error result of the [getSlackChannels] branch. *)
Definition slack_channels_error (params : Tools.CallToolParams) : string :=
  match Tools.arguments params with
  | None => "Tenant ID is required"
  | Some args =>
      match Tools.tenantId args with
      | None => "Tenant ID is required"
      | Some tenant =>
          if String.eqb tenant "" then "Tenant ID is required"
          else "Slack token not found for tenant ID: " ++ tenant
      end
  end.

(** A second draw for a call made after [sample_entropy]'s. *)
Definition later_entropy : Entropy :=
  {| uuid1 := "9b2e4d6f-1a3c-4f5e-8d7b-6c5a4e3f2d1b";
     uuid2 := "5d8f0a2c-4e6b-4a1d-9c3e-7f1b3d5a9c0e";
     uuid3 := "c4a6e8f0-2b4d-4c6e-a8f0-1d3f5b7a9c2e";
     randomBytes := map ascii_of_nat (seq 200 32) |}.

(** ** Proof automation

    [js_unfold] exposes the monad's combinators and the small accessors so
    that a run of provider code computes; [world_simpl] reduces the
    projections of a [World] that is given by its fields. *)

Ltac js_unfold :=
  cbv [bind ret throw try_catch lift gets modify emit console_log console_error
       set_clientsMap set_sessionStore set_disk fs_access fs_readFile
       fs_writeFile _storeSessionData _getSessionData _clearSessionData].

Ltac world_simpl :=
  cbn [_clientsMap _sessionStore disk trace fst snd].

(* ================================================================== *)
(** * Part II: properties *)
(* ================================================================== *)

(** ** Test vectors *)

Example sha256_abc :
  to_hex (Sha256.sha256 "abc")
  = "ba7816bf8f01cfea414140de5dae2223b00361a396177a9cb410ff61f20015ad".
Proof. vm_compute. reflexivity. Qed.

Example base64_sha256_abc :
  Base64.base64 (Sha256.sha256 "abc")
  = "ungWv48Bz+pBQUDeXa4iI7ADYaOWF3qctBD/YfIAFa0=".
Proof. vm_compute. reflexivity. Qed.

Example generatePkce_sample :
  challenge (generatePkce "3f2b8c1e-9d4a-4e7b-8a6c-0f1e2d3c4b5a"
                          "7c9e6679-7425-40de-944b-e07fc1f90ae7"
                          "0e37df36-f698-41bd-b1d4-3a5c6e7f8091")
  = "IxpDNFAbQtW4XIxX0wqX1wlBVKXEF8stIOWkPlJXo_E".
Proof. vm_compute. reflexivity. Qed.

(** ** Base64 and the URL-safe rewriting *)

Section UrlSafe.

Lemma string_app_assoc (s1 s2 s3 : string) :
  (s1 ++ s2) ++ s3 = s1 ++ (s2 ++ s3).
Proof. induction s1 as [|x s1 IH]; simpl; [reflexivity | now rewrite IH]. Qed.

Lemma string_length_app (s1 s2 : string) :
  String.length (s1 ++ s2) = (String.length s1 + String.length s2)%nat.
Proof. induction s1 as [|x s1 IH]; simpl; [reflexivity | now rewrite IH]. Qed.

Lemma replace_all_app (c : ascii) (r s1 s2 : string) :
  replace_all c r (s1 ++ s2) = replace_all c r s1 ++ replace_all c r s2.
Proof.
  induction s1 as [|x s1 IH]; simpl; [reflexivity|].
  rewrite IH. destruct (Ascii.eqb x c); simpl.
  - now rewrite string_app_assoc.
  - reflexivity.
Qed.

Lemma url_safe_app (s1 s2 : string) :
  url_safe (s1 ++ s2) = url_safe s1 ++ url_safe s2.
Proof. unfold url_safe. now rewrite !replace_all_app. Qed.

Lemma url_safe_cons (c : ascii) (s : string) :
  url_safe (String c s) = url_safe (String c EmptyString) ++ url_safe s.
Proof. exact (url_safe_app (String c EmptyString) s). Qed.

Lemma code_range (c : ascii) : (0 <= code c < 256)%Z.
Proof.
  unfold code. pose proof (N_ascii_bounded c). lia.
Qed.

Lemma lor_below_64 (u v : Z) :
  (0 <= u < 64)%Z -> (0 <= v < 64)%Z -> (0 <= Z.lor u v < 64)%Z.
Proof.
  intros Hu Hv. split.
  - apply Z.lor_nonneg. lia.
  - assert (Hz : Z.shiftr (Z.lor u v) 6 = 0%Z).
    { rewrite Z.shiftr_lor, !Z.shiftr_div_pow2 by lia.
      change (2 ^ 6)%Z with 64%Z.
      rewrite (Z.div_small u), (Z.div_small v) by lia. reflexivity. }
    rewrite Z.shiftr_div_pow2 in Hz by lia. change (2 ^ 6)%Z with 64%Z in Hz.
    assert (0 <= Z.lor u v)%Z by (apply Z.lor_nonneg; lia).
    destruct (Z.lt_ge_cases (Z.lor u v) 64) as [|Hge]; [assumption|].
    exfalso. assert (1 <= Z.lor u v / 64)%Z.
    { apply Z.div_le_lower_bound; lia. }
    lia.
Qed.

Lemma sextet1_range (a : ascii) : (0 <= Base64.sextet1 a < 64)%Z.
Proof.
  unfold Base64.sextet1. pose proof (code_range a).
  rewrite Z.shiftr_div_pow2 by lia. change (2 ^ 2)%Z with 4%Z.
  split; [apply Z.div_pos; lia | apply Z.div_lt_upper_bound; lia].
Qed.

Lemma sextet2_range (a b : ascii) : (0 <= Base64.sextet2 a b < 64)%Z.
Proof.
  unfold Base64.sextet2. pose proof (code_range a). pose proof (code_range b).
  apply lor_below_64.
  - rewrite Z.shiftl_mul_pow2 by lia. change (2 ^ 4)%Z with 16%Z.
    change 3%Z with (Z.ones 2). rewrite Z.land_ones by lia.
    change (2 ^ 2)%Z with 4%Z.
    pose proof (Z.mod_pos_bound (code a) 4). lia.
  - rewrite Z.shiftr_div_pow2 by lia. change (2 ^ 4)%Z with 16%Z.
    split; [apply Z.div_pos; lia | apply Z.div_lt_upper_bound; lia].
Qed.

Lemma sextet3_range (b c : ascii) : (0 <= Base64.sextet3 b c < 64)%Z.
Proof.
  unfold Base64.sextet3. pose proof (code_range b). pose proof (code_range c).
  apply lor_below_64.
  - rewrite Z.shiftl_mul_pow2 by lia. change (2 ^ 2)%Z with 4%Z.
    change 15%Z with (Z.ones 4). rewrite Z.land_ones by lia.
    change (2 ^ 4)%Z with 16%Z.
    pose proof (Z.mod_pos_bound (code b) 16). lia.
  - rewrite Z.shiftr_div_pow2 by lia. change (2 ^ 6)%Z with 64%Z.
    split; [apply Z.div_pos; lia | apply Z.div_lt_upper_bound; lia].
Qed.

Lemma sextet4_range (c : ascii) : (0 <= Base64.sextet4 c < 64)%Z.
Proof.
  unfold Base64.sextet4. change 63%Z with (Z.ones 6).
  rewrite Z.land_ones by lia. change (2 ^ 6)%Z with 64%Z.
  apply Z.mod_pos_bound. lia.
Qed.

(** On each of the 64 digits the rewriting yields the digit of the URL-safe
    alphabet at the same index (checked digit by digit). *)
Lemma url_safe_digit (i : Z) :
  (0 <= i < 64)%Z ->
  url_safe (String (Base64.digit Base64.alphabet i) EmptyString)
  = String (Base64.digit Base64.alphabet_url i) EmptyString.
Proof.
  intros Hi.
  pose (check := fun n : nat =>
    String.eqb
      (url_safe (String (Base64.digit Base64.alphabet (Z.of_nat n)) EmptyString))
      (String (Base64.digit Base64.alphabet_url (Z.of_nat n)) EmptyString)).
  assert (Hall : forallb check (seq 0 64) = true) by (vm_compute; reflexivity).
  rewrite forallb_forall in Hall.
  specialize (Hall (Z.to_nat i)).
  assert (Hin : In (Z.to_nat i) (seq 0 64)) by (apply in_seq; lia).
  apply Hall in Hin. unfold check in Hin.
  rewrite Z2Nat.id in Hin by lia.
  now apply String.eqb_eq.
Qed.

Lemma url_safe_digit_cons (i : Z) (s : string) :
  (0 <= i < 64)%Z ->
  url_safe (String (Base64.digit Base64.alphabet i) s)
  = String (Base64.digit Base64.alphabet_url i) (url_safe s).
Proof.
  intros Hi. rewrite url_safe_cons, url_safe_digit by assumption. reflexivity.
Qed.

(** Induction three bytes at a time. *)
Lemma triples_ind (P : Buffer -> Prop) :
  P [] -> (forall a, P [a]) -> (forall a b, P [a; b]) ->
  (forall a b c rest, P rest -> P (a :: b :: c :: rest)) ->
  forall bs, P bs.
Proof.
  intros H0 H1 H2 H3 bs.
  enough (H : P bs /\ (forall a, P (a :: bs)) /\ (forall a b, P (a :: b :: bs)))
    by apply H.
  induction bs as [|x bs [IH0 [IH1 IH2]]].
  - auto.
  - repeat split; auto.
Qed.

(** The code's path (standard base64, then the three replacements) and the
    specification's base64url-no-padding agree on every buffer. *)
Lemma url_safe_base64 (bs : Buffer) :
  url_safe (Base64.base64 bs) = Base64.base64url_nopad bs.
Proof.
  unfold Base64.base64, Base64.base64url_nopad.
  induction bs as [|a|a b|a b c rest IH] using triples_ind; simpl.
  - reflexivity.
  - rewrite !url_safe_digit_cons
      by (apply sextet1_range || apply sextet2_range).
    reflexivity.
  - rewrite !url_safe_digit_cons
      by (apply sextet1_range || apply sextet2_range || apply sextet3_range).
    reflexivity.
  - rewrite !url_safe_digit_cons
      by (apply sextet1_range || apply sextet2_range
          || apply sextet3_range || apply sextet4_range).
    now rewrite IH.
Qed.

End UrlSafe.

(** ** The PKCE generator *)

Section PkceFacts.

Lemma all_chars_app (p : ascii -> bool) (s1 s2 : string) :
  all_chars p (s1 ++ s2) = all_chars p s1 && all_chars p s2.
Proof.
  induction s1 as [|x s1 IH]; simpl; [reflexivity|].
  now rewrite IH, andb_assoc.
Qed.

Lemma lower_hex_unreserved (c : ascii) :
  is_lower_hex c = true -> unreserved c = true.
Proof.
  unfold is_lower_hex, unreserved. cbv zeta.
  rewrite !orb_true_iff, !andb_true_iff, !Z.leb_le, !Z.eqb_eq. lia.
Qed.

Lemma uuid_char_unreserved (i : nat) (c : ascii) :
  (if Nat.eqb i 8 || Nat.eqb i 13 || Nat.eqb i 18 || Nat.eqb i 23
   then Ascii.eqb c "-"%char else is_lower_hex c) = true ->
  unreserved c = true.
Proof.
  destruct (Nat.eqb i 8 || Nat.eqb i 13 || Nat.eqb i 18 || Nat.eqb i 23).
  - intros H. apply Ascii.eqb_eq in H. subst c. reflexivity.
  - apply lower_hex_unreserved.
Qed.

Lemma uuid_shape_from_length (s : string) :
  forall i, uuid_shape_from i s = true -> (i + String.length s = 36)%nat.
Proof.
  induction s as [|c s IH]; simpl; intros i H.
  - apply Nat.eqb_eq in H. lia.
  - apply andb_true_iff in H as [_ H]. apply IH in H. lia.
Qed.

Lemma uuid_shape_from_unreserved (s : string) :
  forall i, uuid_shape_from i s = true -> all_chars unreserved s = true.
Proof.
  induction s as [|c s IH]; simpl; intros i H; [reflexivity|].
  apply andb_true_iff in H as [Hc H].
  apply andb_true_iff. split.
  - exact (uuid_char_unreserved i c Hc).
  - exact (IH _ H).
Qed.

Lemma uuid_shape_length (u : string) :
  uuid_shape u = true -> String.length u = 36%nat.
Proof. intros H. apply uuid_shape_from_length in H. lia. Qed.

Lemma uuid_shape_unreserved (u : string) :
  uuid_shape u = true -> all_chars unreserved u = true.
Proof. exact (uuid_shape_from_unreserved u 0). Qed.

(** Whatever the three identifiers are, the challenge is the S256 transform
    of the verifier. *)
Lemma generatePkce_challenge (u1 u2 u3 : string) :
  challenge (generatePkce u1 u2 u3) = S256 (verifier (generatePkce u1 u2 u3)).
Proof.
  unfold generatePkce, S256. cbn [challenge verifier].
  exact (url_safe_base64 (Sha256.sha256 (u1 ++ u2 ++ u3))).
Qed.

End PkceFacts.

(** C4.  For every pair [generatePkce] returns, the challenge is the
    base64url encoding without padding of SHA-256 of the verifier; when the
    three identifiers drawn have the textual form of a UUID, the verifier is
    between 43 and 128 characters long (108) and made of unreserved
    characters only; and recomputing the challenge from the verifier with
    the fixed S256 transform gives the challenge back. *)
Theorem generatePkce_S256_roundtrip (u1 u2 u3 : string) :
  uuid_shape u1 = true -> uuid_shape u2 = true -> uuid_shape u3 = true ->
  let pkce := generatePkce u1 u2 u3 in
  challenge pkce = Base64.base64url_nopad (Sha256.sha256 (verifier pkce))
  /\ (43 <= String.length (verifier pkce) <= 128)%nat
  /\ all_chars unreserved (verifier pkce) = true
  /\ S256 (verifier pkce) = challenge pkce.
Proof.
  intros H1 H2 H3 pkce.
  pose proof (generatePkce_challenge u1 u2 u3) as Hc. fold pkce in Hc.
  assert (Hv : verifier pkce = u1 ++ u2 ++ u3) by reflexivity.
  repeat split.
  - exact Hc.
  - rewrite Hv, !string_length_app.
    rewrite (uuid_shape_length _ H1), (uuid_shape_length _ H2),
      (uuid_shape_length _ H3). lia.
  - rewrite Hv, !string_length_app.
    rewrite (uuid_shape_length _ H1), (uuid_shape_length _ H2),
      (uuid_shape_length _ H3). lia.
  - rewrite Hv, !all_chars_app.
    rewrite (uuid_shape_unreserved _ H1), (uuid_shape_unreserved _ H2),
      (uuid_shape_unreserved _ H3). reflexivity.
  - symmetry. exact Hc.
Qed.

Lemma generatePkce_S256_roundtrip_witness :
  let pkce := generatePkce "3f2b8c1e-9d4a-4e7b-8a6c-0f1e2d3c4b5a"
                           "7c9e6679-7425-40de-944b-e07fc1f90ae7"
                           "0e37df36-f698-41bd-b1d4-3a5c6e7f8091" in
  challenge pkce = Base64.base64url_nopad (Sha256.sha256 (verifier pkce))
  /\ (43 <= String.length (verifier pkce) <= 128)%nat
  /\ all_chars unreserved (verifier pkce) = true
  /\ S256 (verifier pkce) = challenge pkce.
Proof.
  apply (generatePkce_S256_roundtrip
           "3f2b8c1e-9d4a-4e7b-8a6c-0f1e2d3c4b5a"
           "7c9e6679-7425-40de-944b-e07fc1f90ae7"
           "0e37df36-f698-41bd-b1d4-3a5c6e7f8091"); reflexivity.
Defined.

(** ** Maps *)

Section JsMapFacts.

Context {V : Type}.

Lemma get_set_same (k : string) (v : V) (m : JsMap.t V) :
  JsMap.get k (JsMap.set k v m) = Some v.
Proof.
  induction m as [|[k' v'] m IH]; simpl.
  - now rewrite String.eqb_refl.
  - destruct (String.eqb k' k) eqn:E; simpl; rewrite E; [reflexivity | exact IH].
Qed.

Lemma get_set_other (k k0 : string) (v : V) (m : JsMap.t V) :
  k0 <> k -> JsMap.get k0 (JsMap.set k v m) = JsMap.get k0 m.
Proof.
  intros Hne. induction m as [|[k' v'] m IH]; simpl.
  - destruct (String.eqb k k0) eqn:E; [|reflexivity].
    apply String.eqb_eq in E. congruence.
  - destruct (String.eqb k' k) eqn:E; simpl.
    + apply String.eqb_eq in E. subst k'.
      destruct (String.eqb k k0) eqn:E0; [|reflexivity].
      apply String.eqb_eq in E0. congruence.
    + now rewrite IH.
Qed.

Lemma get_delete_same (k : string) (m : JsMap.t V) :
  JsMap.get k (JsMap.delete k m) = None.
Proof.
  induction m as [|[k' v'] m IH]; simpl; [reflexivity|].
  destruct (String.eqb k' k) eqn:E; simpl; [exact IH | now rewrite E].
Qed.

End JsMapFacts.

(** ** Running provider code *)

Section AuthorizeFacts.

Context {installer : InstallProvider}.

(** What one [authorize] call does when a state was drawn. *)
Lemma authorize_run client params rnd (w : World) :
  internal_state rnd <> "" ->
  authorize client params rnd w =
  (Return tt,
   mkWorld (_clientsMap w)
     (JsMap.set (internal_state rnd) (session_of client params rnd) (_sessionStore w))
     (disk w)
     (trace w
      ++ [ConsoleLog ["Session data stored for state: " ++ internal_state rnd]]
      ++ [InstallUrlRequested (install_options client)]
      ++ match generateInstallUrl (install_options client) with
         | Return authUrl => [Redirect authUrl]
         | Throw e =>
             [ConsoleError "Authorization setup error:" e;
              StatusSend 500
                ("Failed to initialize authentication: " ++ error_toString e)]
         end)).
Proof.
  intros Hs. apply String.eqb_neq in Hs.
  unfold authorize. js_unfold.
  fold (internal_state rnd). rewrite Hs. cbv beta iota zeta.
  fold (first_redirect_uri client). fold (install_options client).
  destruct (generateInstallUrl (install_options client)) as [url|e];
    world_simpl; rewrite <- !app_assoc; reflexivity.
Qed.

(** When no state was drawn the store refuses the session. *)
Lemma authorize_run_no_state client params rnd (w : World) :
  internal_state rnd = "" ->
  authorize client params rnd w =
  (Return tt,
   mkWorld (_clientsMap w) (_sessionStore w) (disk w)
     (trace w
      ++ [ConsoleError "Authorization setup error:"
            (Error "Cannot store session data: state parameter is missing")]
      ++ [StatusSend 500
            ("Failed to initialize authentication: "
             ++ "Error: Cannot store session data: state parameter is missing")])).
Proof.
  intros Hs. unfold authorize. js_unfold.
  fold (internal_state rnd). rewrite Hs.
  change (String.eqb "" "") with true. cbv beta iota zeta.
  world_simpl. rewrite <- ?app_assoc. reflexivity.
Qed.

End AuthorizeFacts.

Section CallbackFacts.

Context {installer : InstallProvider}.

(** A callback whose state is the key of a stored session: the installer is
    called, and nothing else happens to the provider's maps. *)
Lemma handleCallback_run_known (req : Request) (w : World) s sd :
  query_member "state" req = Some (QString s) ->
  JsMap.get s (_sessionStore w) = Some sd ->
  handleCallback req w =
  (match installer_handleCallback req with
   | Return _ => Return None
   | Throw _ => Return (Some failed_callback_result)
   end,
   mkWorld (_clientsMap w) (_sessionStore w) (disk w)
     (trace w ++ [InstallerCallback req]
      ++ match installer_handleCallback req with
         | Return _ => []
         | Throw e => [ConsoleError "Error handling callback:" e]
         end)).
Proof.
  intros Hq Hs. unfold handleCallback. js_unfold.
  rewrite Hq. cbn [session_key]. rewrite Hs.
  destruct (installer_handleCallback req) as [u|e]; world_simpl.
  - now rewrite app_nil_r.
  - now rewrite <- app_assoc.
Qed.

Lemma handleCallback_run_unknown (req : Request) (w : World) :
  (forall s, session_key (query_member "state" req) = Some s ->
             JsMap.get s (_sessionStore w) = None) ->
  handleCallback req w = (Return (Some invalid_state_result), w).
Proof.
  intros Hs. unfold handleCallback. js_unfold.
  destruct (session_key (query_member "state" req)) as [s|] eqn:Hk.
  - now rewrite (Hs s eq_refl).
  - reflexivity.
Qed.

End CallbackFacts.

(** ** The authorization provider *)

(** C1 (the code departs from the claim).  [authorize] keeps the internally
    generated state to itself: what goes to the installer is the scope
    [chat:write] and the client's first redirect URI, nothing else.  Two
    calls that differ only in the state drawn store their sessions under
    different keys and yet make the same upstream request and send the same
    response, so the state on the upstream callback cannot be that key. *)
Theorem authorize_upstream_request_omits_state
    (installer : InstallProvider) client params rnd rnd' (w : World) :
  internal_state rnd <> "" -> internal_state rnd' <> "" ->
  let w1 := snd (authorize client params rnd w) in
  let w2 := snd (authorize client params rnd' w) in
  JsMap.get (internal_state rnd) (_sessionStore w1)
    = Some (session_of client params rnd)
  /\ JsMap.get (internal_state rnd') (_sessionStore w2)
    = Some (session_of client params rnd')
  /\ In (InstallUrlRequested
           {| scopes := ["chat:write"];
              opt_redirectUri := nth_error (redirect_uris client) 0 |})
        (trace w1)
  /\ filter outward (trace w1) = filter outward (trace w2).
Proof.
  intros H1 H2 w1 w2. subst w1 w2.
  rewrite !authorize_run by assumption. world_simpl.
  repeat split.
  - apply get_set_same.
  - apply get_set_same.
  - apply in_or_app. right. apply in_or_app. right. left. reflexivity.
  - rewrite !filter_app. reflexivity.
Qed.

Lemma authorize_upstream_request_omits_state_witness :
  let installer := answering_installer "installer-state" in
  let w1 := snd (authorize sample_client sample_params sample_entropy (constructor None)) in
  let w2 := snd (authorize sample_client sample_params other_entropy (constructor None)) in
  JsMap.get (internal_state sample_entropy) (_sessionStore w1)
    = Some (session_of sample_client sample_params sample_entropy)
  /\ JsMap.get (internal_state other_entropy) (_sessionStore w2)
    = Some (session_of sample_client sample_params other_entropy)
  /\ In (InstallUrlRequested
           {| scopes := ["chat:write"];
              opt_redirectUri := nth_error (redirect_uris sample_client) 0 |})
        (trace w1)
  /\ filter outward (trace w1) = filter outward (trace w2).
Proof.
  apply (authorize_upstream_request_omits_state
           (answering_installer "installer-state")
           sample_client sample_params sample_entropy other_entropy
           (constructor None)); vm_compute; discriminate.
Defined.

(** The same on the sample draw: the session is stored under the 64
    hexadecimal digits drawn, and the redirect carries the installer's state
    in their place. *)
Example authorize_sample_run :
  let installer := answering_installer "installer-state" in
  let w' := snd (authorize sample_client sample_params sample_entropy (constructor None)) in
  map fst (_sessionStore w')
    = ["0102030405060708090a0b0c0d0e0f101112131415161718191a1b1c1d1e1f20"]
  /\ responses (trace w')
    = [Redirect "https://slack.com/oauth/v2/authorize?scope=chat:write&state=installer-state&redirect_uri=https://a/cb"].
Proof. vm_compute. split; reflexivity. Qed.

(** C2 (the code departs from the claim).  A callback whose state matches
    a stored session leaves that session in the store, whether the upstream
    exchange succeeds or fails: a second callback presenting the same state
    finds it again and ends as the first did, not as an unknown state. *)
Theorem handleCallback_keeps_session
    (installer : InstallProvider) (req : Request) (w : World) s sd :
  query_member "state" req = Some (QString s) ->
  JsMap.get s (_sessionStore w) = Some sd ->
  let w1 := snd (handleCallback req w) in
  _sessionStore w1 = _sessionStore w
  /\ JsMap.get s (_sessionStore w1) = Some sd
  /\ fst (handleCallback req w1) = fst (handleCallback req w)
  /\ fst (handleCallback req w1) <> Return (Some invalid_state_result).
Proof.
  intros Hq Hs w1. subst w1.
  rewrite (handleCallback_run_known req w Hq Hs). world_simpl.
  split; [reflexivity|]. split; [exact Hs|].
  rewrite (@handleCallback_run_known installer req _ s sd Hq) by exact Hs.
  world_simpl. split; [reflexivity|].
  destruct (installer_handleCallback req); discriminate.
Qed.

Lemma handleCallback_keeps_session_witness :
  let installer := failing_installer in
  let req := callback_with_state (internal_state sample_entropy) in
  let w := snd (authorize sample_client sample_params sample_entropy (constructor None)) in
  let w1 := snd (handleCallback req w) in
  _sessionStore w1 = _sessionStore w
  /\ JsMap.get (internal_state sample_entropy) (_sessionStore w1)
     = Some (session_of sample_client sample_params sample_entropy)
  /\ fst (handleCallback req w1) = fst (handleCallback req w)
  /\ fst (handleCallback req w1) <> Return (Some invalid_state_result).
Proof.
  apply (handleCallback_keeps_session failing_installer
           (callback_with_state (internal_state sample_entropy))
           (snd (@authorize failing_installer sample_client sample_params
                   sample_entropy (constructor None)))
           (s := internal_state sample_entropy)
           (sd := session_of sample_client sample_params sample_entropy));
    vm_compute; reflexivity.
Defined.

(** C3.  A callback whose state is the key of no stored session ends with
    the invalid-state result and changes nothing: no call to the installer,
    no response, no entry of either map, so nothing is issued for it. *)
Theorem handleCallback_unknown_state
    (installer : InstallProvider) (req : Request) (w : World) :
  (forall s, session_key (query_member "state" req) = Some s ->
             JsMap.get s (_sessionStore w) = None) ->
  handleCallback req w
  = (Return (Some {| redirectUrl := ""; success := false;
                     error := Some "Invalid state parameter" |}), w).
Proof. exact (handleCallback_run_unknown req w). Qed.

Lemma handleCallback_unknown_state_witness :
  let installer := answering_installer "installer-state" in
  let w := snd (authorize sample_client sample_params sample_entropy (constructor None)) in
  handleCallback (callback_with_state "installer-state") w
  = (Return (Some {| redirectUrl := ""; success := false;
                     error := Some "Invalid state parameter" |}), w).
Proof.
  apply (handleCallback_unknown_state (answering_installer "installer-state")
           (callback_with_state "installer-state")
           (snd (@authorize (answering_installer "installer-state")
                   sample_client sample_params sample_entropy (constructor None)))).
  intros s Hs. vm_compute in Hs. injection Hs as <-. vm_compute. reflexivity.
Defined.

(** ** The client registry *)

Section RegistryFacts.

Context {runtime : JsonRuntime}.

Lemma for_of_set_run (entries : list (string * JSON)) :
  forall w,
    for_of entries
      (fun entry =>
         clients <- gets _clientsMap ;;
         set_clientsMap (JsMap.set (fst entry) (snd entry) clients)) w
    = (Return tt,
       mkWorld
         (fold_left (fun m entry => JsMap.set (fst entry) (snd entry) m)
                    entries (_clientsMap w))
         (_sessionStore w) (disk w) (trace w)).
Proof.
  induction entries as [|entry entries IH]; intros [cm ss d t]; cbn [for_of].
  - reflexivity.
  - unfold bind at 1. js_unfold. world_simpl.
    rewrite IH. reflexivity.
Qed.

(** Everything one call of [_loadClientsFromFile] does. *)
Lemma loadClientsFromFile_run (w : World) :
  _loadClientsFromFile w =
  (Return tt,
   match disk w with
   | None =>
       mkWorld (_clientsMap w) (_sessionStore w) None
         (trace w ++ [ConsoleLog ["No saved clients file found. Starting with empty clients list."]])
   | Some content =>
       match JSON_parse content with
       | Throw e =>
           mkWorld (_clientsMap w) (_sessionStore w) (Some content)
             (trace w ++ load_error_lines e)
       | Return clientsData =>
           match Object_entries clientsData with
           | Throw e =>
               mkWorld (JsMap.empty JSON) (_sessionStore w) (Some content)
                 (trace w ++ load_error_lines e)
           | Return entries =>
               mkWorld (registry_of_entries entries) (_sessionStore w) (Some content)
                 (trace w
                  ++ [ConsoleLog ["Loaded "
                                  ++ string_of_nat (JsMap.size (registry_of_entries entries))
                                  ++ " registered clients from file."]])
           end
       end
   end).
Proof.
  destruct w as [cm ss d t]. unfold _loadClientsFromFile, load_error_lines.
  destruct d as [content|].
  - unfold try_catch at 1. unfold bind at 1.
    unfold try_catch at 1. unfold fs_access at 1. js_unfold. world_simpl.
    destruct (JSON_parse content) as [clientsData|e]; world_simpl.
    + destruct (Object_entries clientsData) as [entries|e]; world_simpl.
      * rewrite for_of_set_run. world_simpl. reflexivity.
      * destruct (negb (String.eqb (message e) "File not found"));
          world_simpl; rewrite ?app_nil_r; reflexivity.
    + destruct (negb (String.eqb (message e) "File not found"));
        world_simpl; rewrite ?app_nil_r; reflexivity.
  - js_unfold. world_simpl. reflexivity.
Qed.

(** Everything one call of [_saveClientsToFile] does. *)
Lemma saveClientsToFile_run (outcome : WriteOutcome) (w : World) :
  _saveClientsToFile outcome w =
  match outcome with
  | WriteCompleted =>
      (Return tt,
       mkWorld (_clientsMap w) (_sessionStore w) (Some (registry_text w))
         (trace w ++ [ConsoleLog ["Saved " ++ string_of_nat (JsMap.size (_clientsMap w))
                                  ++ " registered clients to file."]]))
  | WriteRefused e =>
      (Throw e,
       mkWorld (_clientsMap w) (_sessionStore w) (disk w)
         (trace w ++ [ConsoleError "Error saving clients to file:" e]))
  | WriteInterrupted written e =>
      (Throw e,
       mkWorld (_clientsMap w) (_sessionStore w)
         (Some (substring 0 written (registry_text w)))
         (trace w ++ [ConsoleError "Error saving clients to file:" e]))
  end.
Proof.
  destruct w as [cm ss d t].
  unfold _saveClientsToFile, registry_text.
  destruct outcome; js_unfold; world_simpl; reflexivity.
Qed.

End RegistryFacts.



(** C6 (amended).  Loading into a freshly constructed provider never
    raises.  With no file the registry stays empty and one informational
    line is logged.  With a file that does not parse the registry stays
    empty too, the error goes to [console.error] (any error whose message is
    not [File not found]) and the call returns normally: logged, not
    fatal. *)
Theorem loadClientsFromFile_at_startup
    (runtime : JsonRuntime) (file : option string) :
  let r := _loadClientsFromFile (constructor file) in
  fst r = Return tt
  /\ match file with
     | None =>
         _clientsMap (snd r) = JsMap.empty JSON
         /\ trace (snd r)
            = [ConsoleLog ["No saved clients file found. Starting with empty clients list."]]
     | Some content =>
         match JSON_parse content with
         | Throw e =>
             _clientsMap (snd r) = JsMap.empty JSON
             /\ trace (snd r)
                = if negb (String.eqb (message e) "File not found")
                  then [ConsoleError "Error loading clients from file:" e]
                  else []
         | Return clientsData =>
             forall entries, Object_entries clientsData = Return entries ->
               _clientsMap (snd r) = registry_of_entries entries
         end
     end.
Proof.
  intros r. subst r. rewrite loadClientsFromFile_run. world_simpl.
  split; [reflexivity|].
  unfold constructor. world_simpl.
  destruct file as [content|]; [|split; reflexivity].
  destruct (JSON_parse content) as [clientsData|e]; world_simpl.
  - intros entries He. rewrite He. reflexivity.
  - split; reflexivity.
Qed.

(** C6 as stated fails: a file that is present and does not parse is not a
    fatal error; the load returns normally after one [console.error]. *)
Lemma malformed_file_is_not_fatal :
  let runtime := sample_runtime in
  let content := "{ not json" in
  JSON_parse content = Throw (SyntaxError "Unexpected token or end of JSON input")
  /\ _loadClientsFromFile (constructor (Some content))
     = (Return tt,
        mkWorld (JsMap.empty JSON) (JsMap.empty SessionData) (Some content)
          [ConsoleError "Error loading clients from file:"
             (SyntaxError "Unexpected token or end of JSON input")]).
Proof. cbv zeta. split; vm_compute; reflexivity. Qed.

(** C10.  When the clients file exists and its content does not parse, the
    load leaves the map in memory exactly as it was: every client registered
    before is still returned by [getClient]. *)
Theorem loadClientsFromFile_parse_failure_keeps_map
    (runtime : JsonRuntime) (w : World) (content : string) (e : JsError) :
  disk w = Some content ->
  JSON_parse content = Throw e ->
  let w' := snd (_loadClientsFromFile w) in
  _clientsMap w' = _clientsMap w
  /\ forall clientId,
       fst (getClient clientId w') = Return (JsMap.get clientId (_clientsMap w)).
Proof.
  intros Hd Hp w'. subst w'. rewrite loadClientsFromFile_run, Hd, Hp.
  world_simpl. split; [reflexivity|].
  intros clientId. unfold getClient. js_unfold. world_simpl. reflexivity.
Qed.

Lemma loadClientsFromFile_parse_failure_keeps_map_witness :
  let runtime := sample_runtime in
  let w := mkWorld [("c1", client_json sample_client)] (JsMap.empty SessionData)
             (Some "{ not json") [] in
  let w' := snd (_loadClientsFromFile w) in
  _clientsMap w' = _clientsMap w
  /\ forall clientId,
       fst (getClient clientId w') = Return (JsMap.get clientId (_clientsMap w)).
Proof.
  apply (loadClientsFromFile_parse_failure_keeps_map sample_runtime
           (mkWorld [("c1", client_json sample_client)] (JsMap.empty SessionData)
              (Some "{ not json") [])
           (content := "{ not json")
           (e := SyntaxError "Unexpected token or end of JSON input"));
    vm_compute; reflexivity.
Defined.

(** The map is emptied once parsing has succeeded: a file holding [null]
    parses, the map is cleared, and only then [Object.entries] throws. *)
Example load_null_clears_map :
  let runtime := sample_runtime in
  let w := mkWorld [("c1", client_json sample_client)] (JsMap.empty SessionData)
             (Some "null") [] in
  _clientsMap (snd (_loadClientsFromFile w)) = JsMap.empty JSON.
Proof. vm_compute. reflexivity. Qed.

(** A registry written by one provider is read back by a fresh provider
    on which the load is called. *)
Example registry_survives_restart :
  let runtime := sample_runtime in
  let w1 := snd (registerClient sample_client WriteCompleted (constructor None)) in
  let w2 := snd (registerClient second_client WriteCompleted w1) in
  let restarted := snd (_loadClientsFromFile (constructor (disk w2))) in
  _clientsMap restarted
  = [("c1", client_json sample_client); ("c2", client_json second_client)].
Proof. vm_compute. reflexivity. Qed.

(** C7 (the code departs from the claim).  Whenever session storage or
    upstream URL construction fails, the user-agent receives exactly one
    response, status 500, whose body is the fixed prefix followed by the
    error's text.  When storage is what failed the session store is
    unchanged.  When URL construction failed, the session stored just before
    is not removed: it stays in the store under the state drawn. *)
Theorem authorize_failure_responds_500
    (installer : InstallProvider) client params rnd (w : World) :
  (internal_state rnd = ""
   \/ exists e, generateInstallUrl (install_options client) = Throw e) ->
  let w' := snd (authorize client params rnd w) in
  (exists e,
      responses (trace w')
      = (responses (trace w)
         ++ [StatusSend 500
               ("Failed to initialize authentication: " ++ error_toString e)])%list)
  /\ (internal_state rnd = "" -> _sessionStore w' = _sessionStore w)
  /\ (internal_state rnd <> "" ->
      _sessionStore w'
      = JsMap.set (internal_state rnd) (session_of client params rnd)
          (_sessionStore w)).
Proof.
  intros Hfail w'. subst w'.
  destruct (String.eqb_spec (internal_state rnd) "") as [Hs|Hs].
  - rewrite (authorize_run_no_state client params rnd w Hs). world_simpl.
    split; [|split; [reflexivity | contradiction]].
    exists (Error "Cannot store session data: state parameter is missing").
    unfold responses. rewrite !filter_app. reflexivity.
  - destruct Hfail as [Hs'|[e He]]; [contradiction|].
    rewrite (authorize_run client params rnd w Hs), He. world_simpl.
    split; [|split; [contradiction | reflexivity]].
    exists e. unfold responses. rewrite !filter_app. reflexivity.
Qed.

Lemma authorize_failure_responds_500_witness :
  let installer := failing_installer in
  let w := constructor None in
  let w' := snd (authorize sample_client sample_params sample_entropy w) in
  (exists e,
      responses (trace w')
      = (responses (trace w)
         ++ [StatusSend 500
               ("Failed to initialize authentication: " ++ error_toString e)])%list)
  /\ (internal_state sample_entropy = "" -> _sessionStore w' = _sessionStore w)
  /\ (internal_state sample_entropy <> "" ->
      _sessionStore w'
      = JsMap.set (internal_state sample_entropy)
          (session_of sample_client sample_params sample_entropy)
          (_sessionStore w)).
Proof.
  apply (authorize_failure_responds_500 failing_installer
           sample_client sample_params sample_entropy (constructor None)).
  right. exists (Error "upstream unavailable"). reflexivity.
Defined.

(** On the sample call: the installer cannot build the URL, the user-agent
    gets its 500, and the session stored a moment before is still in the
    store, which was empty before the call. *)
Example url_failure_leaves_session_behind :
  let installer := failing_installer in
  let w := constructor None in
  let w' := snd (authorize sample_client sample_params sample_entropy w) in
  _sessionStore w = JsMap.empty SessionData
  /\ responses (trace w')
     = [StatusSend 500
          "Failed to initialize authentication: Error: upstream unavailable"]
  /\ JsMap.get (internal_state sample_entropy) (_sessionStore w')
     = Some (session_of sample_client sample_params sample_entropy).
Proof. cbv zeta. repeat split; vm_compute; reflexivity. Qed.

(** The other failure: no state drawn, nothing stored, status 500. *)
Example storage_failure_stores_nothing :
  let installer := answering_installer "installer-state" in
  let rnd := {| uuid1 := ""; uuid2 := ""; uuid3 := ""; randomBytes := [] |} in
  let w' := snd (authorize sample_client sample_params rnd (constructor None)) in
  _sessionStore w' = JsMap.empty SessionData
  /\ responses (trace w')
     = [StatusSend 500
          "Failed to initialize authentication: Error: Cannot store session data: state parameter is missing"].
Proof. cbv zeta. split; vm_compute; reflexivity. Qed.

(** C8 (amended).  [exchangeAuthorizationCode] is a stub: for every client
    and authorization code it throws [Error('Method not implemented.')].  It
    reads no verifier and no captured challenge, and returns no tokens. *)
Theorem exchangeAuthorizationCode_not_implemented
    (client : OAuthClientInformationFull) (authorizationCode : string) :
  exchangeAuthorizationCode client authorizationCode
  = Throw (Error "Method not implemented.")
  /\ forall tokens : OAuthTokens,
       exchangeAuthorizationCode client authorizationCode <> Return tokens.
Proof. split; [reflexivity | discriminate]. Qed.

(** C8 as stated fails: with the challenge [abc] captured at authorize time
    and a verifier that does not hash to it, the exchange does fail, but
    with the generic [Error], not with a PKCE validation error. *)
Lemma exchange_failure_is_not_pkce_error :
  let installer := answering_installer "installer-state" in
  let w := snd (authorize sample_client sample_params sample_entropy (constructor None)) in
  option_map clientCodeChallenge
    (JsMap.get (internal_state sample_entropy) (_sessionStore w)) = Some "abc"
  /\ S256 "not-the-verifier" <> "abc"
  /\ exists e, exchangeAuthorizationCode sample_client "code-1" = Throw e
               /\ error_name e = "Error"
               /\ error_name e <> "PKCEValidationError".
Proof.
  cbv zeta. split; [vm_compute; reflexivity|].
  split; [vm_compute; discriminate|].
  eexists. split; [reflexivity|]. split; [reflexivity | discriminate].
Qed.

(** ** The tool dispatcher *)

(** C9.  A [getUserDetails] call whose context carries no token, or a token
    the token store does not know, returns an ordinary tool result whose
    text describes the failure; the handler does not throw. *)
Theorem getUserDetails_soft_failure
    (runtime : JsonRuntime) (web : Tools.WebClient) (tokens : Tools.TokenStore)
    (params : Tools.CallToolParams) :
  Tools.name params = Tools.GET_USER_DETAILS ->
  (session_token params = None
   \/ exists t, session_token params = Some t /\ Tools.getToken t = None) ->
  Tools.callTool params
  = Return (Tools.text_result
              ("Error getting user details: "
               ++ if Tools.falsy (session_token params)
                  then "No authentication token provided"
                  else "Invalid or expired session token")).
Proof.
  intros Hname Htoken.
  unfold Tools.callTool. rewrite Hname.
  change (String.eqb Tools.GET_USER_DETAILS Tools.GET_SLACK_CHANNELS) with false.
  change (String.eqb Tools.GET_USER_DETAILS Tools.GET_USER_DETAILS) with true.
  cbv beta iota. unfold Tools.getUserDetails. fold (session_token params).
  destruct Htoken as [Hnone|[t [Hsome Hunknown]]].
  - rewrite Hnone. reflexivity.
  - rewrite Hsome. cbn [Tools.falsy].
    destruct (String.eqb t ""); [reflexivity|].
    rewrite Hunknown. reflexivity.
Qed.

Lemma getUserDetails_soft_failure_witness :
  let params :=
    {| Tools.name := "getUserDetails"; Tools.arguments := None;
       Tools.context := Some {| Tools.token := Some "forged" |} |} in
  @Tools.callTool sample_runtime sample_web sample_tokens params
  = Return (Tools.text_result
              ("Error getting user details: "
               ++ if Tools.falsy (session_token params)
                  then "No authentication token provided"
                  else "Invalid or expired session token")).
Proof.
  apply (getUserDetails_soft_failure sample_runtime sample_web sample_tokens
           {| Tools.name := "getUserDetails"; Tools.arguments := None;
              Tools.context := Some {| Tools.token := Some "forged" |} |}).
  - reflexivity.
  - right. exists "forged". split; reflexivity.
Defined.

(** The three ways a [getUserDetails] call can end, on the sample store. *)
Example getUserDetails_samples :
  let call (context : option Tools.ToolContext) :=
    @Tools.callTool sample_runtime sample_web sample_tokens
      {| Tools.name := "getUserDetails"; Tools.arguments := None;
         Tools.context := context |} in
  call None
  = Return (Tools.text_result "Error getting user details: No authentication token provided")
  /\ call (Some {| Tools.token := Some "forged" |})
     = Return (Tools.text_result "Error getting user details: Invalid or expired session token")
  /\ call (Some {| Tools.token := Some "tok-1" |})
     = Return (Tools.text_result Tools.user_details_text).
Proof. cbv zeta. repeat split; vm_compute; reflexivity. Qed.

(** [getSlackChannels] never reaches Slack: both configured tenants have an
    empty token, so every call ends in an error text. *)
Lemma getSlackChannels_never_calls_slack
    (runtime : JsonRuntime) (web : Tools.WebClient) (params : Tools.CallToolParams) :
  exists msg,
    Tools.getSlackChannels params
    = Return (Tools.text_result ("Error getting channels: " ++ msg)).
Proof.
  unfold Tools.getSlackChannels.
  destruct (Tools.arguments params) as [args|]; [|eexists; reflexivity].
  destruct (Tools.falsy (Tools.tenantId args)); [eexists; reflexivity|].
  set (tenant := match Tools.tenantId args with Some t => t | None => "" end).
  cbn [Tools.exampleTenantConfiguration find Tools.cfg_tenantId].
  destruct (String.eqb "Bogdan" tenant); [eexists; reflexivity|].
  destruct (String.eqb "Omer" tenant); eexists; reflexivity.
Qed.

(** ** Further properties of the code *)

Section DigestFacts.

Lemma compress_length (h block : list Z) :
  length h = 8%nat -> length (Sha256.compress h block) = 8%nat.
Proof.
  intros Hh. unfold Sha256.compress.
  rewrite length_map, length_combine, Hh. reflexivity.
Qed.

Lemma fold_compress_length (bl : list (list Z)) :
  forall h, length h = 8%nat -> length (fold_left Sha256.compress bl h) = 8%nat.
Proof.
  induction bl as [|b bl IH]; intros h Hh; simpl; [assumption|].
  apply IH. now apply compress_length.
Qed.

Lemma flat_map_be_bytes_length (ws : list Z) :
  length (flat_map (Sha256.be_bytes 4) ws) = (4 * length ws)%nat.
Proof.
  induction ws as [|x ws IH]; [reflexivity|].
  cbn [flat_map]. rewrite length_app, IH. cbn [Sha256.be_bytes length]. lia.
Qed.

(** A SHA-256 digest is 32 bytes, whatever the message. *)
Lemma sha256_length (s : string) : length (Sha256.sha256 s) = 32%nat.
Proof.
  unfold Sha256.sha256, Sha256.digest_bytes.
  rewrite length_map, flat_map_be_bytes_length, fold_compress_length; reflexivity.
Qed.

(** The unpadded encoding of [n] bytes has [(4 n + 2) / 3] digits. *)
Lemma base64url_nopad_length (bs : Buffer) :
  String.length (Base64.base64url_nopad bs) = ((4 * length bs + 2) / 3)%nat.
Proof.
  unfold Base64.base64url_nopad.
  induction bs as [|a|a b|a b c rest IH] using triples_ind.
  - reflexivity.
  - reflexivity.
  - reflexivity.
  - cbn [Base64.encode_with String.length length]. rewrite IH.
    replace (4 * S (S (S (length rest))) + 2)%nat
      with (4 * length rest + 2 + 4 * 3)%nat by lia.
    rewrite Nat.div_add by discriminate. lia.
Qed.

Lemma url_digit_unreserved (i : Z) :
  (0 <= i < 64)%Z -> unreserved (Base64.digit Base64.alphabet_url i) = true.
Proof.
  intros Hi.
  assert (Hall : forallb (fun n => unreserved (Base64.digit Base64.alphabet_url (Z.of_nat n)))
                         (seq 0 64) = true) by (vm_compute; reflexivity).
  rewrite forallb_forall in Hall.
  specialize (Hall (Z.to_nat i)). rewrite Z2Nat.id in Hall by lia.
  apply Hall, in_seq. lia.
Qed.

Lemma base64url_nopad_unreserved (bs : Buffer) :
  all_chars unreserved (Base64.base64url_nopad bs) = true.
Proof.
  unfold Base64.base64url_nopad.
  induction bs as [|a|a b|a b c rest IH] using triples_ind;
    cbn [Base64.encode_with all_chars append];
    rewrite ?url_digit_unreserved
      by (apply sextet1_range || apply sextet2_range
          || apply sextet3_range || apply sextet4_range);
    try reflexivity.
  exact IH.
Qed.

End DigestFacts.

(** X1.  Every challenge [generatePkce] returns is 43 characters long and
    made of unreserved characters only (no [+], [/] or [=] is left). *)
Theorem generatePkce_challenge_shape (u1 u2 u3 : string) :
  String.length (challenge (generatePkce u1 u2 u3)) = 43%nat
  /\ all_chars unreserved (challenge (generatePkce u1 u2 u3)) = true.
Proof.
  rewrite generatePkce_challenge. unfold S256.
  rewrite base64url_nopad_length, sha256_length, base64url_nopad_unreserved.
  split; reflexivity.
Qed.

(** X2.  A registration succeeds in memory however the write to disk ends:
    the call returns the client, [getClient] finds it, every other client is
    where it was, and a failed write is reported on [console.error] by the
    save and again by the registration. *)
Theorem registerClient_in_memory
    (runtime : JsonRuntime) client (outcome : WriteOutcome) (w : World) :
  let r := registerClient client outcome w in
  fst r = Return client
  /\ JsMap.get (client_id client) (_clientsMap (snd r)) = Some (client_json client)
  /\ (forall other, other <> client_id client ->
        JsMap.get other (_clientsMap (snd r)) = JsMap.get other (_clientsMap w))
  /\ match outcome with
     | WriteCompleted => True
     | WriteRefused e | WriteInterrupted _ e =>
         In (ConsoleError "Error saving clients to file:" e) (trace (snd r))
         /\ In (ConsoleError "Failed to save client registration:" e) (trace (snd r))
     end.
Proof.
  intros r. subst r. destruct w as [cm ss d t].
  unfold registerClient.
  unfold bind at 1. unfold gets at 1. world_simpl.
  unfold bind at 1. unfold set_clientsMap at 1, modify at 1. world_simpl.
  unfold bind at 1. unfold console_log at 1, emit at 1, modify at 1. world_simpl.
  unfold bind at 1. unfold try_catch at 1.
  rewrite saveClientsToFile_run.
  destruct outcome; js_unfold; world_simpl;
    (split; [reflexivity|]);
    (split; [apply get_set_same|]);
    (split; [intros other Hne; now apply get_set_other|]);
    try exact I;
    split; apply in_or_app.
  - left. apply in_or_app. right. left. reflexivity.
  - right. left. reflexivity.
  - left. apply in_or_app. right. left. reflexivity.
  - right. left. reflexivity.
Qed.

(** X3.  When a state was drawn and the installer answers, [authorize]
    stores the session under that state, leaves every other session alone,
    and answers with one redirect to the installer's URL. *)
Theorem authorize_stores_session_and_redirects
    (installer : InstallProvider) client params rnd (w : World) (url : string) :
  internal_state rnd <> "" ->
  generateInstallUrl (install_options client) = Return url ->
  let w' := snd (authorize client params rnd w) in
  JsMap.get (internal_state rnd) (_sessionStore w')
    = Some (session_of client params rnd)
  /\ (forall other, other <> internal_state rnd ->
        JsMap.get other (_sessionStore w') = JsMap.get other (_sessionStore w))
  /\ responses (trace w') = (responses (trace w) ++ [Redirect url])%list.
Proof.
  intros Hs Hurl w'. subst w'.
  rewrite (authorize_run client params rnd w Hs), Hurl. world_simpl.
  split; [apply get_set_same|].
  split; [intros other Hne; now apply get_set_other|].
  unfold responses. rewrite !filter_app. reflexivity.
Qed.

Lemma authorize_stores_session_and_redirects_witness :
  let installer := answering_installer "installer-state" in
  let w := constructor None in
  let w' := snd (authorize sample_client sample_params sample_entropy w) in
  JsMap.get (internal_state sample_entropy) (_sessionStore w')
    = Some (session_of sample_client sample_params sample_entropy)
  /\ (forall other, other <> internal_state sample_entropy ->
        JsMap.get other (_sessionStore w') = JsMap.get other (_sessionStore w))
  /\ responses (trace w')
     = (responses (trace w)
        ++ [Redirect "https://slack.com/oauth/v2/authorize?scope=chat:write&state=installer-state&redirect_uri=https://a/cb"])%list.
Proof.
  apply (authorize_stores_session_and_redirects
           (answering_installer "installer-state")
           sample_client sample_params sample_entropy (constructor None)).
  - vm_compute. discriminate.
  - reflexivity.
Defined.

(** X4.  [getSlackChannels] never reaches Slack: both configured tenants
    have an empty token, so every call ends in an error text returned as an
    ordinary tool result. *)
Theorem getSlackChannels_always_error_text
    (runtime : JsonRuntime) (web : Tools.WebClient) (tokens : Tools.TokenStore)
    (params : Tools.CallToolParams) :
  Tools.name params = Tools.GET_SLACK_CHANNELS ->
  exists msg,
    Tools.callTool params
    = Return (Tools.text_result ("Error getting channels: " ++ msg)).
Proof.
  intros Hname. unfold Tools.callTool. rewrite Hname.
  change (String.eqb Tools.GET_SLACK_CHANNELS Tools.GET_SLACK_CHANNELS) with true.
  cbv beta iota. apply getSlackChannels_never_calls_slack.
Qed.

Lemma getSlackChannels_always_error_text_witness :
  exists msg,
    @Tools.callTool sample_runtime sample_web sample_tokens
      {| Tools.name := "getSlackChannels";
         Tools.arguments := Some {| Tools.tenantId := Some "Omer" |};
         Tools.context := None |}
    = Return (Tools.text_result ("Error getting channels: " ++ msg)).
Proof.
  apply (getSlackChannels_always_error_text sample_runtime sample_web sample_tokens
           {| Tools.name := "getSlackChannels";
              Tools.arguments := Some {| Tools.tenantId := Some "Omer" |};
              Tools.context := None |}).
  reflexivity.
Defined.


(** ** The session store *)

Section MoreMapFacts.

Context {V : Type}.

Lemma get_delete_other (k k0 : string) (m : JsMap.t V) :
  k0 <> k -> JsMap.get k0 (JsMap.delete k m) = JsMap.get k0 m.
Proof.
  intros Hne. induction m as [|[k' v'] m IH]; simpl; [reflexivity|].
  destruct (String.eqb k' k) eqn:E; simpl.
  - apply String.eqb_eq in E. subst k'.
    destruct (String.eqb k k0) eqn:E0; [|exact IH].
    apply String.eqb_eq in E0. congruence.
  - now rewrite IH.
Qed.

Lemma delete_absent (k : string) (m : JsMap.t V) :
  JsMap.get k m = None -> JsMap.delete k m = m.
Proof.
  induction m as [|[k' v'] m IH]; simpl; [reflexivity|].
  destruct (String.eqb k' k); [discriminate|].
  intros H. now rewrite IH.
Qed.

Lemma delete_idempotent (k : string) (m : JsMap.t V) :
  JsMap.delete k (JsMap.delete k m) = JsMap.delete k m.
Proof. apply delete_absent, get_delete_same. Qed.

Lemma get_none_keys (k : string) (m : JsMap.t V) :
  JsMap.get k m = None <-> ~ In k (map fst m).
Proof.
  induction m as [|[k' v'] m IH]; simpl.
  - tauto.
  - destruct (String.eqb_spec k' k) as [->|Hne].
    + split; [discriminate | intros H; exfalso; apply H; now left].
    + rewrite IH. tauto.
Qed.

Lemma set_absent (k : string) (v : V) (m : JsMap.t V) :
  JsMap.get k m = None -> JsMap.set k v m = (m ++ [(k, v)])%list.
Proof.
  induction m as [|[k' v'] m IH]; simpl; [reflexivity|].
  destruct (String.eqb k' k); [discriminate|].
  intros H. now rewrite IH.
Qed.

Lemma keys_set (k : string) (v : V) (m : JsMap.t V) :
  map fst (JsMap.set k v m)
  = match JsMap.get k m with
    | Some _ => map fst m
    | None => (map fst m ++ [k])%list
    end.
Proof.
  induction m as [|[k' v'] m IH]; simpl; [reflexivity|].
  destruct (String.eqb k' k); simpl; [reflexivity|].
  rewrite IH. now destruct (JsMap.get k m).
Qed.

Lemma keys_distinct_set (k : string) (v : V) (m : JsMap.t V) :
  keys_distinct m -> keys_distinct (JsMap.set k v m).
Proof.
  unfold keys_distinct. intros Hm. rewrite keys_set.
  destruct (JsMap.get k m) eqn:E; [assumption|].
  apply get_none_keys in E.
  apply NoDup_app; [assumption | repeat constructor; intros [] | ].
  intros x Hx [<-|[]]. contradiction.
Qed.

End MoreMapFacts.

(** X6.  A session stored under a non-empty state is what a lookup by that
    state returns next, and the lookup of every other state is unchanged. *)
Theorem storeSessionData_then_get (state : string) (data : SessionData) (w : World) :
  state <> "" ->
  let w1 := snd (_storeSessionData state data w) in
  fst (_storeSessionData state data w) = Return tt
  /\ fst (_getSessionData state w1) = Return (Some data)
  /\ forall other, other <> state ->
       fst (_getSessionData other w1) = fst (_getSessionData other w).
Proof.
  intros Hs w1. subst w1. apply String.eqb_neq in Hs.
  unfold _storeSessionData. rewrite Hs. js_unfold. world_simpl.
  split; [reflexivity|]. split.
  - now rewrite get_set_same.
  - intros other Hne. now rewrite get_set_other.
Qed.

Lemma storeSessionData_then_get_witness :
  let data := session_of sample_client sample_params sample_entropy in
  let w1 := snd (_storeSessionData "s-1" data (constructor None)) in
  fst (_storeSessionData "s-1" data (constructor None)) = Return tt
  /\ fst (_getSessionData "s-1" w1) = Return (Some data)
  /\ forall other, other <> "s-1" ->
       fst (_getSessionData other w1) = fst (_getSessionData other (constructor None)).
Proof.
  apply (storeSessionData_then_get (state := "s-1")
           (session_of sample_client sample_params sample_entropy)
           (constructor None)).
  discriminate.
Defined.

(** X7.  [_clearSessionData] never throws, also for a state that has no
    session; afterwards that state has none, every other state has what it
    had, and clearing again changes nothing in the store. *)
Theorem clearSessionData_removes (state : string) (w : World) :
  let w1 := snd (_clearSessionData state w) in
  fst (_clearSessionData state w) = Return tt
  /\ fst (_getSessionData state w1) = Return None
  /\ (forall other, other <> state ->
        fst (_getSessionData other w1) = fst (_getSessionData other w))
  /\ _sessionStore (snd (_clearSessionData state w1)) = _sessionStore w1
  /\ (JsMap.get state (_sessionStore w) = None -> _sessionStore w1 = _sessionStore w).
Proof.
  intros w1. subst w1. js_unfold. world_simpl.
  split; [reflexivity|]. split; [now rewrite get_delete_same|].
  split; [intros other Hne; now rewrite get_delete_other|].
  split; [apply delete_idempotent | apply delete_absent].
Qed.

(** A session stored and then cleared is gone. *)
Example store_clear_get :
  let data := session_of sample_client sample_params sample_entropy in
  let w1 := snd (_storeSessionData "s-1" data (constructor None)) in
  let w2 := snd (_clearSessionData "s-1" w1) in
  fst (_getSessionData "s-1" w1) = Return (Some data)
  /\ fst (_getSessionData "s-1" w2) = Return None.
Proof. cbv zeta. split; vm_compute; reflexivity. Qed.

(** ** The state [authorize] draws *)

Section HexFacts.

Lemma nibble_high_range (b : ascii) : (0 <= Z.shiftr (code b) 4 < 16)%Z.
Proof.
  pose proof (code_range b). rewrite Z.shiftr_div_pow2 by lia.
  change (2 ^ 4)%Z with 16%Z.
  split; [apply Z.div_pos; lia | apply Z.div_lt_upper_bound; lia].
Qed.

Lemma nibble_low_range (b : ascii) : (0 <= Z.land (code b) 15 < 16)%Z.
Proof.
  change 15%Z with (Z.ones 4). rewrite Z.land_ones by lia.
  change (2 ^ 4)%Z with 16%Z. apply Z.mod_pos_bound. lia.
Qed.

Lemma nibbles_code (b : ascii) :
  code b = (16 * Z.shiftr (code b) 4 + Z.land (code b) 15)%Z.
Proof.
  rewrite Z.shiftr_div_pow2 by lia.
  change 15%Z with (Z.ones 4). rewrite Z.land_ones by lia.
  change (2 ^ 4)%Z with 16%Z. apply Z.div_mod. lia.
Qed.

Lemma code_inj (a b : ascii) : code a = code b -> a = b.
Proof.
  unfold code. intros H. apply N2Z.inj in H.
  rewrite <- (ascii_N_embedding a), <- (ascii_N_embedding b). now f_equal.
Qed.

Lemma hex_digit_lower (i : Z) : (0 <= i < 16)%Z -> is_lower_hex (hex_digit i) = true.
Proof.
  intros Hi.
  assert (Hall : forallb (fun n => is_lower_hex (hex_digit (Z.of_nat n))) (seq 0 16) = true)
    by (vm_compute; reflexivity).
  rewrite forallb_forall in Hall.
  specialize (Hall (Z.to_nat i)). rewrite Z2Nat.id in Hall by lia.
  apply Hall, in_seq. lia.
Qed.

Lemma hex_digit_inj (i j : Z) :
  (0 <= i < 16)%Z -> (0 <= j < 16)%Z -> hex_digit i = hex_digit j -> i = j.
Proof.
  intros Hi Hj H.
  pose (check := fun n m : nat =>
    implb (Ascii.eqb (hex_digit (Z.of_nat n)) (hex_digit (Z.of_nat m))) (Nat.eqb n m)).
  assert (Hall : forallb (fun n => forallb (check n) (seq 0 16)) (seq 0 16) = true)
    by (vm_compute; reflexivity).
  rewrite forallb_forall in Hall.
  assert (Hn : In (Z.to_nat i) (seq 0 16)) by (apply in_seq; lia).
  specialize (Hall _ Hn). rewrite forallb_forall in Hall.
  assert (Hm : In (Z.to_nat j) (seq 0 16)) by (apply in_seq; lia).
  specialize (Hall _ Hm). unfold check in Hall.
  rewrite !Z2Nat.id in Hall by lia.
  rewrite H, Ascii.eqb_refl in Hall. cbn [implb] in Hall.
  apply Nat.eqb_eq in Hall. lia.
Qed.

(** Two hexadecimal digits per byte. *)
Lemma to_hex_length (bs : Buffer) :
  String.length (to_hex bs) = (2 * length bs)%nat.
Proof.
  induction bs as [|b bs IH]; [reflexivity|].
  cbn [to_hex String.length length]. rewrite IH. lia.
Qed.

Lemma to_hex_lower (bs : Buffer) : all_chars is_lower_hex (to_hex bs) = true.
Proof.
  induction bs as [|b bs IH]; [reflexivity|].
  cbn [to_hex all_chars].
  rewrite (hex_digit_lower (nibble_high_range b)),
    (hex_digit_lower (nibble_low_range b)), IH.
  reflexivity.
Qed.

(** Different buffers have different hexadecimal texts. *)
Lemma to_hex_inj (bs1 : Buffer) :
  forall bs2, to_hex bs1 = to_hex bs2 -> bs1 = bs2.
Proof.
  induction bs1 as [|a bs1 IH]; intros [|b bs2] H; cbn [to_hex] in H;
    try discriminate; [reflexivity|].
  injection H as Hhi Hlo Hrest.
  apply hex_digit_inj in Hhi; try apply nibble_high_range.
  apply hex_digit_inj in Hlo; try apply nibble_low_range.
  f_equal; [|now apply IH].
  apply code_inj. rewrite (nibbles_code a), (nibbles_code b). lia.
Qed.

Lemma internal_state_nonempty (rnd : Entropy) :
  length (randomBytes rnd) = 32%nat -> internal_state rnd <> "".
Proof.
  intros Hlen Hs. apply (f_equal String.length) in Hs.
  unfold internal_state in Hs. rewrite to_hex_length, Hlen in Hs. discriminate.
Qed.

End HexFacts.

(** X8.  With the 32 bytes [crypto.randomBytes(32)] returns, the state is 64
    lower-case hexadecimal digits, so the store never refuses it: the
    session is stored, and the single response is the redirect to the
    installer's URL or, when the installer fails, the status 500 carrying
    the installer's error. *)
Theorem authorize_with_32_bytes
    (installer : InstallProvider) client params rnd (w : World) :
  length (randomBytes rnd) = 32%nat ->
  let w' := snd (authorize client params rnd w) in
  String.length (internal_state rnd) = 64%nat
  /\ all_chars is_lower_hex (internal_state rnd) = true
  /\ JsMap.get (internal_state rnd) (_sessionStore w')
     = Some (session_of client params rnd)
  /\ responses (trace w')
     = (responses (trace w)
        ++ [match generateInstallUrl (install_options client) with
            | Return authUrl => Redirect authUrl
            | Throw e =>
                StatusSend 500
                  ("Failed to initialize authentication: " ++ error_toString e)
            end])%list.
Proof.
  intros Hlen w'. subst w'.
  rewrite (authorize_run client params rnd w (internal_state_nonempty rnd Hlen)).
  world_simpl. unfold internal_state at 1 2.
  rewrite to_hex_length, Hlen, to_hex_lower.
  split; [reflexivity|]. split; [reflexivity|]. split; [apply get_set_same|].
  unfold responses. rewrite !filter_app.
  destruct (generateInstallUrl (install_options client)); reflexivity.
Qed.

Lemma authorize_with_32_bytes_witness :
  let installer := answering_installer "installer-state" in
  let w := constructor None in
  let w' := snd (authorize sample_client sample_params sample_entropy w) in
  String.length (internal_state sample_entropy) = 64%nat
  /\ all_chars is_lower_hex (internal_state sample_entropy) = true
  /\ JsMap.get (internal_state sample_entropy) (_sessionStore w')
     = Some (session_of sample_client sample_params sample_entropy)
  /\ responses (trace w')
     = (responses (trace w)
        ++ [match generateInstallUrl (install_options sample_client) with
            | Return authUrl => Redirect authUrl
            | Throw e =>
                StatusSend 500
                  ("Failed to initialize authentication: " ++ error_toString e)
            end])%list.
Proof.
  apply (authorize_with_32_bytes (answering_installer "installer-state")
           sample_client sample_params sample_entropy (constructor None)).
  reflexivity.
Defined.

(** X9.  Two [authorize] calls whose 32 random bytes differ store their
    sessions under different states, and after both calls each session is
    found under its own state, whatever the clients and the installer's
    answers. *)
Theorem authorize_twice_keeps_both
    (installer : InstallProvider) client1 params1 rnd1 client2 params2 rnd2
    (w : World) :
  length (randomBytes rnd1) = 32%nat ->
  length (randomBytes rnd2) = 32%nat ->
  randomBytes rnd1 <> randomBytes rnd2 ->
  let w1 := snd (authorize client1 params1 rnd1 w) in
  let w2 := snd (authorize client2 params2 rnd2 w1) in
  internal_state rnd1 <> internal_state rnd2
  /\ JsMap.get (internal_state rnd1) (_sessionStore w2)
     = Some (session_of client1 params1 rnd1)
  /\ JsMap.get (internal_state rnd2) (_sessionStore w2)
     = Some (session_of client2 params2 rnd2).
Proof.
  intros H1 H2 Hne w1 w2. subst w1 w2.
  assert (Hstates : internal_state rnd1 <> internal_state rnd2).
  { intros H. apply Hne. now apply to_hex_inj. }
  rewrite (authorize_run client2 params2 rnd2 _ (internal_state_nonempty rnd2 H2)).
  rewrite (authorize_run client1 params1 rnd1 w (internal_state_nonempty rnd1 H1)).
  world_simpl. split; [assumption|]. split.
  - rewrite get_set_other by assumption. apply get_set_same.
  - apply get_set_same.
Qed.

Lemma authorize_twice_keeps_both_witness :
  let installer := answering_installer "installer-state" in
  let w1 := snd (authorize sample_client sample_params sample_entropy (constructor None)) in
  let w2 := snd (authorize second_client sample_params later_entropy w1) in
  internal_state sample_entropy <> internal_state later_entropy
  /\ JsMap.get (internal_state sample_entropy) (_sessionStore w2)
     = Some (session_of sample_client sample_params sample_entropy)
  /\ JsMap.get (internal_state later_entropy) (_sessionStore w2)
     = Some (session_of second_client sample_params later_entropy).
Proof.
  apply (authorize_twice_keeps_both (answering_installer "installer-state")
           sample_client sample_params sample_entropy
           second_client sample_params later_entropy (constructor None));
    [reflexivity | reflexivity | vm_compute; discriminate].
Defined.

(** X10.  [authorize] with a state that is new to the store adds exactly
    one session, after the ones already there; with a state that already has
    a session it replaces that session in place, without any error: the
    session in flight is overwritten. *)
Theorem authorize_session_keys
    (installer : InstallProvider) client params rnd (w : World) :
  internal_state rnd <> "" ->
  let w' := snd (authorize client params rnd w) in
  map fst (_sessionStore w')
  = match JsMap.get (internal_state rnd) (_sessionStore w) with
    | Some _ => map fst (_sessionStore w)
    | None => (map fst (_sessionStore w) ++ [internal_state rnd])%list
    end
  /\ JsMap.get (internal_state rnd) (_sessionStore w')
     = Some (session_of client params rnd)
  /\ fst (authorize client params rnd w) = Return tt.
Proof.
  intros Hs w'. subst w'. rewrite (authorize_run client params rnd w Hs).
  world_simpl. split; [apply keys_set|]. split; [apply get_set_same | reflexivity].
Qed.

Lemma authorize_session_keys_witness :
  let installer := answering_installer "installer-state" in
  let w := snd (authorize sample_client sample_params sample_entropy (constructor None)) in
  let w' := snd (authorize second_client sample_params sample_entropy w) in
  map fst (_sessionStore w')
  = match JsMap.get (internal_state sample_entropy) (_sessionStore w) with
    | Some _ => map fst (_sessionStore w)
    | None => (map fst (_sessionStore w) ++ [internal_state sample_entropy])%list
    end
  /\ JsMap.get (internal_state sample_entropy) (_sessionStore w')
     = Some (session_of second_client sample_params sample_entropy)
  /\ fst (authorize second_client sample_params sample_entropy w) = Return tt.
Proof.
  apply (authorize_session_keys (answering_installer "installer-state")
           second_client sample_params sample_entropy
           (snd (@authorize (answering_installer "installer-state")
                   sample_client sample_params sample_entropy (constructor None)))).
  vm_compute. discriminate.
Defined.

(** The overwrite on the sample: the second client's call with the same
    draw leaves one session, the second client's. *)
Example authorize_same_state_overwrites :
  let installer := answering_installer "installer-state" in
  let w := snd (authorize sample_client sample_params sample_entropy (constructor None)) in
  let w' := snd (authorize second_client sample_params sample_entropy w) in
  map (fun entry => clientId (snd entry)) (_sessionStore w) = ["c1"]
  /\ map (fun entry => clientId (snd entry)) (_sessionStore w') = ["c2"].
Proof. cbv zeta. split; vm_compute; reflexivity. Qed.

(** X11.  [authorize] never raises and never touches the client registry
    or the clients file, whatever the draw and the installer's answer. *)
Theorem authorize_frame
    (installer : InstallProvider) client params rnd (w : World) :
  fst (authorize client params rnd w) = Return tt
  /\ _clientsMap (snd (authorize client params rnd w)) = _clientsMap w
  /\ disk (snd (authorize client params rnd w)) = disk w.
Proof.
  destruct (String.eqb_spec (internal_state rnd) "") as [Hs|Hs].
  - rewrite (authorize_run_no_state client params rnd w Hs). repeat split.
  - rewrite (authorize_run client params rnd w Hs). repeat split.
Qed.

(** ** The callback *)

Section MoreCallbackFacts.

Context {installer : InstallProvider}.

Lemma session_key_string (v : option QueryValue) (s : string) :
  session_key v = Some s -> v = Some (QString s).
Proof.
  destruct v as [[s'| |]|]; cbn [session_key]; try discriminate.
  now intros [= ->].
Qed.

(** Everything one call of [handleCallback] does, by whether the state is
    the key of a session. *)
Lemma handleCallback_run (req : Request) (w : World) :
  handleCallback req w =
  if session_found req w then
    (match installer_handleCallback req with
     | Return _ => Return None
     | Throw _ => Return (Some failed_callback_result)
     end,
     mkWorld (_clientsMap w) (_sessionStore w) (disk w)
       (trace w ++ [InstallerCallback req]
        ++ match installer_handleCallback req with
           | Return _ => []
           | Throw e => [ConsoleError "Error handling callback:" e]
           end))
  else (Return (Some invalid_state_result), w).
Proof.
  unfold session_found.
  destruct (session_key (query_member "state" req)) as [s|] eqn:Hk.
  - destruct (JsMap.get s (_sessionStore w)) as [sd|] eqn:Hs.
    + apply (handleCallback_run_known req w (session_key_string _ Hk) Hs).
    + apply handleCallback_run_unknown. intros s' Hs'.
      rewrite Hk in Hs'. injection Hs' as <-. exact Hs.
  - apply handleCallback_run_unknown. intros s' Hs'. rewrite Hk in Hs'. discriminate.
Qed.

End MoreCallbackFacts.

(** X12.  [handleCallback] never raises and never reports success: every
    result it returns has [success: false] and an empty [redirectUrl] (when
    the installer completes, it returns nothing at all), and it changes
    neither map nor the clients file. *)
Theorem handleCallback_never_succeeds
    (installer : InstallProvider) (req : Request) (w : World) :
  (exists result, fst (handleCallback req w) = Return result
     /\ forall r, result = Some r -> success r = false /\ redirectUrl r = "")
  /\ _clientsMap (snd (handleCallback req w)) = _clientsMap w
  /\ _sessionStore (snd (handleCallback req w)) = _sessionStore w
  /\ disk (snd (handleCallback req w)) = disk w.
Proof.
  rewrite handleCallback_run.
  destruct (session_found req w).
  - world_simpl. split; [|repeat split].
    destruct (installer_handleCallback req); eexists; (split; [reflexivity|]).
    + discriminate.
    + intros r [= <-]. split; reflexivity.
  - world_simpl. split; [|repeat split].
    eexists. split; [reflexivity|]. intros r [= <-]. split; reflexivity.
Qed.

(** X13.  [handleCallback] hands the request to the installer exactly when
    the state is the key of a stored session, and writes no response of its
    own in either case. *)
Theorem handleCallback_calls_installer_iff_session
    (installer : InstallProvider) (req : Request) (w : World) :
  filter outward (trace (snd (handleCallback req w)))
  = (filter outward (trace w)
     ++ if session_found req w then [InstallerCallback req] else [])%list.
Proof.
  rewrite handleCallback_run.
  destruct (session_found req w); world_simpl.
  - rewrite !filter_app. cbn [filter outward].
    destruct (installer_handleCallback req); cbn [filter outward];
      now rewrite app_nil_r.
  - now rewrite app_nil_r.
Qed.

(** The callback with a repeated [state] parameter (an array in
    [req.query]) is an unknown state. *)
Example handleCallback_array_state :
  let installer := answering_installer "installer-state" in
  let w := snd (authorize sample_client sample_params sample_entropy (constructor None)) in
  let req := {| query := [("state", QArray [internal_state sample_entropy; "x"])] |} in
  handleCallback req w = (Return (Some invalid_state_result), w).
Proof. vm_compute. reflexivity. Qed.

(** ** More on the tool dispatcher *)

Section MoreToolFacts.

Context {runtime : JsonRuntime} {web : Tools.WebClient} {tokens : Tools.TokenStore}.

Lemma getUserDetails_returns (params : Tools.CallToolParams) :
  exists r, Tools.getUserDetails params = Return r.
Proof.
  unfold Tools.getUserDetails, Tools.soft.
  destruct (Tools.falsy _); [eexists; reflexivity|].
  destruct (Tools.getToken _); eexists; reflexivity.
Qed.

Lemma getSlackChannels_run (params : Tools.CallToolParams) :
  Tools.getSlackChannels params
  = Return (Tools.text_result ("Error getting channels: " ++ slack_channels_error params)).
Proof.
  unfold Tools.getSlackChannels, slack_channels_error.
  destruct (Tools.arguments params) as [args|]; [|reflexivity].
  destruct (Tools.tenantId args) as [tenant|]; cbn [Tools.falsy]; [|reflexivity].
  destruct (String.eqb tenant ""); [reflexivity|].
  cbn [Tools.exampleTenantConfiguration find Tools.cfg_tenantId].
  destruct (String.eqb "Bogdan" tenant); [reflexivity|].
  destruct (String.eqb "Omer" tenant); reflexivity.
Qed.

End MoreToolFacts.

(** X14.  The tool handler raises exactly for a name that is neither
    [getUserDetails] nor [getSlackChannels], with [Unknown tool: ] followed
    by the name; for the two known names it always returns a result. *)
Theorem callTool_raises_iff_unknown
    (runtime : JsonRuntime) (web : Tools.WebClient) (tokens : Tools.TokenStore)
    (params : Tools.CallToolParams) :
  let known := Tools.name params = Tools.GET_USER_DETAILS
               \/ Tools.name params = Tools.GET_SLACK_CHANNELS in
  ((exists r, Tools.callTool params = Return r) <-> known)
  /\ (Tools.callTool params = Throw (Error ("Unknown tool: " ++ Tools.name params))
      <-> ~ known).
Proof.
  intros known. subst known. unfold Tools.callTool.
  destruct (String.eqb_spec (Tools.name params) Tools.GET_SLACK_CHANNELS) as [Hs|Hs].
  - rewrite getSlackChannels_run. split; split.
    + intros _. now right.
    + intros _. eexists. reflexivity.
    + discriminate.
    + intros H. exfalso. apply H. now right.
  - destruct (String.eqb_spec (Tools.name params) Tools.GET_USER_DETAILS) as [Hu|Hu].
    + destruct (getUserDetails_returns params) as [r Hr]. rewrite Hr. split; split.
      * intros _. now left.
      * intros _. eexists. reflexivity.
      * discriminate.
      * intros H. exfalso. apply H. now left.
    + split; split.
      * intros [r Hr]. discriminate.
      * intros [H|H]; contradiction.
      * intros _ [H|H]; contradiction.
      * reflexivity.
Qed.

(** X15.  A [getUserDetails] call with a non-empty token the token store
    knows returns the fixed user-details text: the same text for every
    token, whatever identity the store holds for it. *)
Theorem getUserDetails_known_token
    (runtime : JsonRuntime) (web : Tools.WebClient) (tokens : Tools.TokenStore)
    (params : Tools.CallToolParams) (t : string) (identity : Tools.TokenData) :
  Tools.name params = Tools.GET_USER_DETAILS ->
  session_token params = Some t ->
  t <> "" ->
  Tools.getToken t = Some identity ->
  Tools.callTool params = Return (Tools.text_result Tools.user_details_text).
Proof.
  intros Hname Htoken Hne Hknown.
  unfold Tools.callTool. rewrite Hname.
  change (String.eqb Tools.GET_USER_DETAILS Tools.GET_SLACK_CHANNELS) with false.
  change (String.eqb Tools.GET_USER_DETAILS Tools.GET_USER_DETAILS) with true.
  cbv beta iota. unfold Tools.getUserDetails. fold (session_token params).
  rewrite Htoken. cbn [Tools.falsy].
  apply String.eqb_neq in Hne. rewrite Hne, Hknown. reflexivity.
Qed.

Lemma getUserDetails_known_token_witness :
  @Tools.callTool sample_runtime sample_web sample_tokens
    {| Tools.name := "getUserDetails"; Tools.arguments := None;
       Tools.context := Some {| Tools.token := Some "tok-1" |} |}
  = Return (Tools.text_result Tools.user_details_text).
Proof.
  apply (getUserDetails_known_token sample_runtime sample_web sample_tokens
           {| Tools.name := "getUserDetails"; Tools.arguments := None;
              Tools.context := Some {| Tools.token := Some "tok-1" |} |}
           (t := "tok-1") (identity := "U123"));
    [reflexivity | reflexivity | discriminate | reflexivity].
Defined.

(** X16.  The text a [getSlackChannels] call returns: [Tenant ID is
    required] when the arguments or the tenant id are missing or empty, and
    otherwise [Slack token not found for tenant ID: ] followed by the tenant
    id, for the two configured tenants as for any other. *)
Theorem getSlackChannels_error_text
    (runtime : JsonRuntime) (web : Tools.WebClient) (tokens : Tools.TokenStore)
    (params : Tools.CallToolParams) :
  Tools.name params = Tools.GET_SLACK_CHANNELS ->
  Tools.callTool params
  = Return (Tools.text_result
              ("Error getting channels: "
               ++ match Tools.arguments params with
                  | None => "Tenant ID is required"
                  | Some args =>
                      match Tools.tenantId args with
                      | None => "Tenant ID is required"
                      | Some tenant =>
                          if String.eqb tenant "" then "Tenant ID is required"
                          else "Slack token not found for tenant ID: " ++ tenant
                      end
                  end)).
Proof.
  intros Hname. unfold Tools.callTool. rewrite Hname.
  change (String.eqb Tools.GET_SLACK_CHANNELS Tools.GET_SLACK_CHANNELS) with true.
  cbv beta iota. exact (getSlackChannels_run params).
Qed.

Lemma getSlackChannels_error_text_witness :
  @Tools.callTool sample_runtime sample_web sample_tokens
    {| Tools.name := "getSlackChannels";
       Tools.arguments := Some {| Tools.tenantId := Some "Bogdan" |};
       Tools.context := None |}
  = Return (Tools.text_result
              "Error getting channels: Slack token not found for tenant ID: Bogdan").
Proof.
  apply (getSlackChannels_error_text sample_runtime sample_web sample_tokens
           {| Tools.name := "getSlackChannels";
              Tools.arguments := Some {| Tools.tenantId := Some "Bogdan" |};
              Tools.context := None |}).
  reflexivity.
Defined.

(** ** More on the client registry *)

Section MoreRegistryFacts.

Context {runtime : JsonRuntime}.

Lemma fold_set_distinct (entries : list (string * JSON)) :
  forall acc : JsMap.t JSON,
    NoDup (map fst (acc ++ entries)) ->
    fold_left (fun m entry => JsMap.set (fst entry) (snd entry) m) entries acc
    = (acc ++ entries)%list.
Proof.
  induction entries as [|[k v] entries IH]; intros acc Hnd; cbn [fold_left fst snd].
  - now rewrite app_nil_r.
  - assert (Hk : JsMap.get k acc = None).
    { apply get_none_keys. intros Hin.
      rewrite map_app in Hnd. cbn [map fst] in Hnd.
      apply NoDup_remove_2 in Hnd. apply Hnd, in_or_app. now left. }
    rewrite (set_absent k v acc Hk).
    replace (acc ++ (k, v) :: entries)%list with ((acc ++ [(k, v)]) ++ entries)%list
      by (now rewrite <- app_assoc).
    apply IH. now rewrite <- app_assoc.
Qed.

(** Read back, the entries of a map rebuild that map. *)
Lemma registry_of_entries_id (m : JsMap.t JSON) :
  keys_distinct m -> registry_of_entries (JsMap.entries m) = m.
Proof.
  intros Hm. unfold registry_of_entries, JsMap.entries.
  exact (fold_set_distinct m (JsMap.empty JSON) Hm).
Qed.

(** Everything one call of [registerClient] does. *)
Lemma registerClient_run client (outcome : WriteOutcome) (w : World) :
  let clients := JsMap.set (client_id client) (client_json client) (_clientsMap w) in
  let registered :=
    (trace w ++ [ConsoleLog ["Registered client "; client_id client]])%list in
  let text := JSON_stringify (object_from_entries (JsMap.entries clients)) 2 in
  registerClient client outcome w =
  (Return client,
   match outcome with
   | WriteCompleted =>
       mkWorld clients (_sessionStore w) (Some text)
         (registered
          ++ [ConsoleLog ["Saved " ++ string_of_nat (JsMap.size clients)
                          ++ " registered clients to file."]])
   | WriteRefused e =>
       mkWorld clients (_sessionStore w) (disk w)
         (registered
          ++ [ConsoleError "Error saving clients to file:" e;
              ConsoleError "Failed to save client registration:" e])
   | WriteInterrupted written e =>
       mkWorld clients (_sessionStore w) (Some (substring 0 written text))
         (registered
          ++ [ConsoleError "Error saving clients to file:" e;
              ConsoleError "Failed to save client registration:" e])
   end).
Proof.
  destruct w as [cm ss d t]. cbv zeta. world_simpl.
  unfold registerClient.
  unfold bind at 1. unfold gets at 1. world_simpl.
  unfold bind at 1. unfold set_clientsMap at 1, modify at 1. world_simpl.
  unfold bind at 1. unfold console_log at 1, emit at 1, modify at 1. world_simpl.
  unfold bind at 1. unfold try_catch at 1.
  rewrite saveClientsToFile_run. unfold registry_text.
  destruct outcome; js_unfold; world_simpl; rewrite <- ?app_assoc; reflexivity.
Qed.

Lemma registerClient_keeps_keys_distinct client (outcome : WriteOutcome) (w : World) :
  keys_distinct (_clientsMap w) ->
  keys_distinct (_clientsMap (snd (registerClient client outcome w))).
Proof.
  intros Hw. rewrite registerClient_run. cbv zeta.
  destruct outcome; world_simpl; now apply keys_distinct_set.
Qed.

End MoreRegistryFacts.

Section ObjectFacts.

Context {runtime : JsonRuntime}.

(** With distinct keys, the assignments leave every entry but the one whose
    key is [__proto__], in the order of the entries. *)
Lemma assign_fold (entries : list (string * JSON)) :
  forall own : list (string * JSON),
    NoDup (map fst (own ++ entries)) ->
    fold_left (fun o entry => object_assign (fst entry) (snd entry) o) entries own
    = (own ++ filter kept entries)%list.
Proof.
  induction entries as [|[k v] entries IH]; intros own Hnd;
    cbn [fold_left filter fst snd].
  - now rewrite app_nil_r.
  - unfold object_assign, kept at 1. cbn [fst].
    destruct (String.eqb k "__proto__"); cbn [negb].
    + apply IH. rewrite map_app in Hnd |- *. cbn [map fst] in Hnd.
      now apply NoDup_remove_1 in Hnd.
    + assert (Hk : JsMap.get k own = None).
      { apply get_none_keys. intros Hin.
        rewrite map_app in Hnd. cbn [map fst] in Hnd.
        apply NoDup_remove_2 in Hnd. apply Hnd, in_or_app. now left. }
      rewrite (set_absent k v own Hk).
      replace (own ++ (k, v) :: filter kept entries)%list
        with ((own ++ [(k, v)]) ++ filter kept entries)%list
        by (now rewrite <- app_assoc).
      apply IH. now rewrite <- app_assoc.
Qed.

Lemma insert_by_index_perm e (l : list (N * (string * JSON))) :
  Permutation (insert_by_index e l) (e :: l).
Proof.
  induction l as [|x l IH]; cbn [insert_by_index]; [reflexivity|].
  destruct (fst e <? fst x)%N; [reflexivity|].
  rewrite IH. apply perm_swap.
Qed.

Lemma sort_by_index_perm (l : list (N * (string * JSON))) :
  Permutation (fold_right insert_by_index [] l) l.
Proof.
  induction l as [|x l IH]; cbn [fold_right]; [reflexivity|].
  rewrite insert_by_index_perm. now apply perm_skip.
Qed.

(** Enumeration reorders the own properties and loses none. *)
Lemma own_enumerable_perm (own : list (string * JSON)) :
  Permutation (own_enumerable own) own.
Proof.
  unfold own_enumerable.
  rewrite (Permutation_map snd (sort_by_index_perm (flat_map with_index own))).
  induction own as [|m own IH]; [reflexivity|].
  cbn [flat_map filter]. unfold with_index at 1, named at 1.
  destruct (array_index (fst m)); cbn [app map snd].
  - now apply perm_skip.
  - apply Permutation_sym, Permutation_cons_app, Permutation_sym, IH.
Qed.

Lemma get_some_in (k : string) (v : JSON) (l : list (string * JSON)) :
  NoDup (map fst l) -> (JsMap.get k l = Some v <-> In (k, v) l).
Proof.
  induction l as [|[k' v'] l IH]; cbn [JsMap.get map fst In].
  - intros _. split; [discriminate | contradiction].
  - intros Hnd. apply NoDup_cons_iff in Hnd as [Hk' Hnd].
    destruct (String.eqb_spec k' k) as [->|Hne].
    + split.
      * intros [= ->]. now left.
      * intros [[= ->]|Hin]; [reflexivity|].
        exfalso. apply Hk'. change k with (fst (k, v)). now apply in_map.
    + rewrite (IH Hnd). split.
      * intros H. now right.
      * intros [[= -> _]|H]; [contradiction | assumption].
Qed.

(** A lookup does not depend on the order of entries with distinct keys. *)
Lemma get_perm (k : string) (l l' : list (string * JSON)) :
  NoDup (map fst l) -> Permutation l l' -> JsMap.get k l = JsMap.get k l'.
Proof.
  intros Hnd Hp.
  assert (Hnd' : NoDup (map fst l'))
    by (eapply Permutation_NoDup; [apply Permutation_map, Hp | exact Hnd]).
  destruct (JsMap.get k l) as [v|] eqn:E; destruct (JsMap.get k l') as [v'|] eqn:E';
    try reflexivity.
  - apply (get_some_in k v' l' Hnd') in E'.
    apply (Permutation_in _ (Permutation_sym Hp)) in E'.
    apply (get_some_in k v' l Hnd) in E'. congruence.
  - apply (get_some_in k v l Hnd) in E. apply (Permutation_in _ Hp) in E.
    apply (get_some_in k v l' Hnd') in E. congruence.
  - apply (get_some_in k v' l' Hnd') in E'.
    apply (Permutation_in _ (Permutation_sym Hp)) in E'.
    apply (get_some_in k v' l Hnd) in E'. congruence.
Qed.

Lemma get_filter_kept (k : string) (l : list (string * JSON)) :
  JsMap.get k (filter kept l)
  = if String.eqb k "__proto__" then None else JsMap.get k l.
Proof.
  induction l as [|[k' v'] l IH]; cbn [filter JsMap.get].
  - now destruct (String.eqb k "__proto__").
  - unfold kept at 1. cbn [fst].
    destruct (String.eqb_spec k' "__proto__") as [->|Hp]; cbn [negb JsMap.get].
    + rewrite IH. destruct (String.eqb_spec k "__proto__") as [->|Hk].
      * reflexivity.
      * destruct (String.eqb_spec "__proto__" k); [congruence | reflexivity].
    + rewrite IH. destruct (String.eqb_spec k' k) as [->|Hne]; [|reflexivity].
      destruct (String.eqb_spec k "__proto__"); [contradiction | reflexivity].
Qed.

Lemma keys_filter_distinct (f : string * JSON -> bool) (l : list (string * JSON)) :
  NoDup (map fst l) -> NoDup (map fst (filter f l)).
Proof.
  induction l as [|m l IH]; cbn [filter map]; [trivial|].
  intros Hnd. apply NoDup_cons_iff in Hnd as [Hm Hnd].
  destruct (f m); cbn [map]; [|now apply IH].
  apply NoDup_cons; [|now apply IH].
  intros Hin. apply Hm. apply in_map_iff in Hin as [x [Hx Hin]].
  apply filter_In in Hin as [Hin _]. rewrite <- Hx. now apply in_map.
Qed.

(** The members of the object [_saveClientsToFile] serialises, for a
    registry with distinct ids: every entry but the one under [__proto__],
    each id once, reordered at most. *)
Lemma object_from_entries_members (m : JsMap.t JSON) :
  keys_distinct m ->
  exists members,
    object_from_entries (JsMap.entries m) = JObject members
    /\ NoDup (map fst members)
    /\ forall k, JsMap.get k members
                 = if String.eqb k "__proto__" then None else JsMap.get k m.
Proof.
  intros Hm. unfold object_from_entries, JsMap.entries.
  rewrite (assign_fold m [] Hm). cbn [app].
  pose proof (keys_filter_distinct kept m Hm) as Hf.
  pose proof (own_enumerable_perm (filter kept m)) as Hp.
  eexists. split; [reflexivity|]. split.
  - eapply Permutation_NoDup;
      [apply Permutation_map, Permutation_sym, Hp | exact Hf].
  - intros k. rewrite <- get_filter_kept. symmetry. now apply get_perm.
Qed.

End ObjectFacts.

(** X17.  What a completed registration writes, a load reads back: when
    [_loadClientsFromFile] is called on a freshly constructed provider with
    that file, every client whose id is not [__proto__] is found under its
    id with the record it had, the client just registered among them; a
    client registered under the id [__proto__] is not in the file and is
    not found.  The hypotheses: the registry has no repeated id (as in every
    state reached from the constructor), the new id is not [__proto__], and
    the runtime's [JSON.parse] reads back the object its [JSON.stringify]
    wrote. *)
Theorem saved_registry_loads_back
    (runtime : JsonRuntime) client (w : World) :
  keys_distinct (_clientsMap w) ->
  client_id client <> "__proto__" ->
  let w1 := snd (registerClient client WriteCompleted w) in
  JSON_parse (registry_text w1)
  = Return (object_from_entries (JsMap.entries (_clientsMap w1))) ->
  let loaded := snd (_loadClientsFromFile (constructor (disk w1))) in
  disk w1 = Some (registry_text w1)
  /\ JsMap.get (client_id client) (_clientsMap loaded) = Some (client_json client)
  /\ (forall id, id <> "__proto__" ->
        JsMap.get id (_clientsMap loaded) = JsMap.get id (_clientsMap w1))
  /\ JsMap.get "__proto__" (_clientsMap loaded) = None.
Proof.
  intros Hw Hid w1 Hparse loaded.
  pose proof (registerClient_keeps_keys_distinct client WriteCompleted w Hw) as Hw1.
  fold w1 in Hw1.
  assert (Hdisk : disk w1 = Some (registry_text w1)).
  { subst w1. rewrite registerClient_run. reflexivity. }
  assert (Hmap : _clientsMap w1
                 = JsMap.set (client_id client) (client_json client) (_clientsMap w)).
  { subst w1. rewrite registerClient_run. reflexivity. }
  destruct (object_from_entries_members Hw1)
    as [members [Hobj [Hnd Hget]]].
  assert (Hloaded : _clientsMap loaded = members).
  { subst loaded. rewrite loadClientsFromFile_run, Hdisk.
    unfold constructor. world_simpl. rewrite Hparse, Hobj. cbn [Object_entries].
    world_simpl. exact (fold_set_distinct members (JsMap.empty JSON) Hnd). }
  assert (Hother : forall id, id <> "__proto__" ->
            JsMap.get id (_clientsMap loaded) = JsMap.get id (_clientsMap w1)).
  { intros id Hne. rewrite Hloaded, Hget.
    apply String.eqb_neq in Hne. now rewrite Hne. }
  split; [exact Hdisk|]. split; [|split; [exact Hother|]].
  - rewrite (Hother _ Hid), Hmap. apply get_set_same.
  - rewrite Hloaded, Hget. reflexivity.
Qed.

Lemma saved_registry_loads_back_witness :
  let runtime := sample_runtime in
  let w := snd (registerClient sample_client WriteCompleted (constructor None)) in
  let w1 := snd (registerClient second_client WriteCompleted w) in
  let loaded := snd (_loadClientsFromFile (constructor (disk w1))) in
  disk w1 = Some (registry_text w1)
  /\ JsMap.get (client_id second_client) (_clientsMap loaded)
     = Some (client_json second_client)
  /\ (forall id, id <> "__proto__" ->
        JsMap.get id (_clientsMap loaded) = JsMap.get id (_clientsMap w1))
  /\ JsMap.get "__proto__" (_clientsMap loaded) = None.
Proof.
  apply (saved_registry_loads_back sample_runtime second_client
           (snd (@registerClient sample_runtime sample_client WriteCompleted
                   (constructor None)))).
  - vm_compute. repeat constructor; simpl; intuition discriminate.
  - vm_compute. discriminate.
  - vm_compute. reflexivity.
Defined.

(** A client registered under the id [__proto__] is in memory and not in
    the file: the object written is empty. *)
Example proto_client_is_not_written :
  let runtime := sample_runtime in
  let client := {| client_id := "__proto__"; redirect_uris := ["https://p/cb"];
                   metadata := [] |} in
  let w1 := snd (registerClient client WriteCompleted (constructor None)) in
  JsMap.get "__proto__" (_clientsMap w1) = Some (client_json client)
  /\ disk w1 = Some "{}".
Proof. cbv zeta. split; vm_compute; reflexivity. Qed.

(** Ids that are array indices are written first, in ascending numeric
    order, whatever the order of registration. *)
Example index_ids_are_written_first :
  let runtime := sample_runtime in
  let plain (id : string) := {| client_id := id; redirect_uris := []; metadata := [] |} in
  let w1 := snd (registerClient (plain "b") WriteCompleted (constructor None)) in
  let w2 := snd (registerClient (plain "10") WriteCompleted w1) in
  let w3 := snd (registerClient (plain "2") WriteCompleted w2) in
  let w4 := snd (registerClient (plain "007") WriteCompleted w3) in
  map fst (_clientsMap w4) = ["b"; "10"; "2"; "007"]
  /\ (exists members,
        JSON_parse (registry_text w4) = Return (JObject members)
        /\ map fst members = ["2"; "10"; "b"; "007"]).
Proof.
  cbv zeta. split; [vm_compute; reflexivity|].
  eexists. split; vm_compute; reflexivity.
Qed.

(** X18.  A load whose file parses replaces the registry in memory: what it
    leaves is what a fresh provider would load from the same file, so a
    client that is in memory and not in the file is dropped. *)
Theorem loadClientsFromFile_replaces_memory
    (runtime : JsonRuntime) (w : World) (content : string) (clientsData : JSON) :
  disk w = Some content ->
  JSON_parse content = Return clientsData ->
  _clientsMap (snd (_loadClientsFromFile w))
  = _clientsMap (snd (_loadClientsFromFile (constructor (Some content)))).
Proof.
  intros Hd Hp. rewrite !loadClientsFromFile_run, Hd.
  unfold constructor. world_simpl. rewrite Hp.
  destruct (Object_entries clientsData); reflexivity.
Qed.

Lemma loadClientsFromFile_replaces_memory_witness :
  let runtime := sample_runtime in
  let content := JSON_stringify (JObject [("c2", client_json second_client)]) 2 in
  let w := mkWorld [("c1", client_json sample_client)] (JsMap.empty SessionData)
             (Some content) [] in
  _clientsMap (snd (_loadClientsFromFile w))
  = _clientsMap (snd (_loadClientsFromFile (constructor (Some content)))).
Proof.
  apply (loadClientsFromFile_replaces_memory sample_runtime
           (mkWorld [("c1", client_json sample_client)] (JsMap.empty SessionData)
              (Some (@JSON_stringify sample_runtime
                       (JObject [("c2", client_json second_client)]) 2)) [])
           (content := @JSON_stringify sample_runtime
                         (JObject [("c2", client_json second_client)]) 2)
           (clientsData := JObject [("c2", client_json second_client)]));
    vm_compute; reflexivity.
Defined.

(** The client in memory only is gone after the load. *)
Example load_drops_unsaved_client :
  let runtime := sample_runtime in
  let content := JSON_stringify (JObject [("c2", client_json second_client)]) 2 in
  let w := mkWorld [("c1", client_json sample_client)] (JsMap.empty SessionData)
             (Some content) [] in
  map fst (_clientsMap (snd (_loadClientsFromFile w))) = ["c2"].
Proof. vm_compute. reflexivity. Qed.

(** X19.  A clients file that holds [null] parses, so the registry is
    emptied; [Object.entries] then throws, the [TypeError] goes to
    [console.error] and the load returns normally: the clients in memory are
    lost although the file gave none. *)
Theorem loadClientsFromFile_null_empties_registry
    (runtime : JsonRuntime) (w : World) (content : string) :
  disk w = Some content ->
  JSON_parse content = Return JNull ->
  _loadClientsFromFile w
  = (Return tt,
     mkWorld (JsMap.empty JSON) (_sessionStore w) (Some content)
       (trace w
        ++ [ConsoleError "Error loading clients from file:"
              (TypeError "Cannot convert undefined or null to object")])).
Proof.
  intros Hd Hp. rewrite loadClientsFromFile_run, Hd, Hp. reflexivity.
Qed.

Lemma loadClientsFromFile_null_empties_registry_witness :
  let runtime := sample_runtime in
  let w := mkWorld [("c1", client_json sample_client)] (JsMap.empty SessionData)
             (Some "null") [] in
  _loadClientsFromFile w
  = (Return tt,
     mkWorld (JsMap.empty JSON) (_sessionStore w) (Some "null")
       (trace w
        ++ [ConsoleError "Error loading clients from file:"
              (TypeError "Cannot convert undefined or null to object")])).
Proof.
  apply (loadClientsFromFile_null_empties_registry sample_runtime
           (mkWorld [("c1", client_json sample_client)] (JsMap.empty SessionData)
              (Some "null") [])
           (content := "null")); vm_compute; reflexivity.
Defined.

(** X20.  A clients file that holds a number or a boolean is accepted
    without any error: the registry is emptied and the load reports zero
    clients loaded. *)
Theorem loadClientsFromFile_primitive_is_silent
    (runtime : JsonRuntime) (w : World) (content : string) (clientsData : JSON) :
  disk w = Some content ->
  JSON_parse content = Return clientsData ->
  ((exists b, clientsData = JBool b) \/ (exists z, clientsData = JNumber z)) ->
  _loadClientsFromFile w
  = (Return tt,
     mkWorld (JsMap.empty JSON) (_sessionStore w) (Some content)
       (trace w ++ [ConsoleLog ["Loaded 0 registered clients from file."]])).
Proof.
  intros Hd Hp Hv. rewrite loadClientsFromFile_run, Hd, Hp.
  destruct Hv as [[b ->]|[z ->]]; reflexivity.
Qed.

Lemma loadClientsFromFile_primitive_is_silent_witness :
  let runtime := sample_runtime in
  let w := mkWorld [("c1", client_json sample_client)] (JsMap.empty SessionData)
             (Some "42") [] in
  _loadClientsFromFile w
  = (Return tt,
     mkWorld (JsMap.empty JSON) (_sessionStore w) (Some "42")
       (trace w ++ [ConsoleLog ["Loaded 0 registered clients from file."]])).
Proof.
  apply (loadClientsFromFile_primitive_is_silent sample_runtime
           (mkWorld [("c1", client_json sample_client)] (JsMap.empty SessionData)
              (Some "42") [])
           (content := "42") (clientsData := JNumber 42)).
  - reflexivity.
  - vm_compute. reflexivity.
  - right. exists 42%Z. reflexivity.
Defined.

(** X21.  The order of the registry: registering a client whose id is new
    puts it after the clients already there; registering an id that is
    already there replaces that client's record where it stands, and the
    registry does not grow; this holds however the write to disk ends. *)
Theorem registerClient_order
    (runtime : JsonRuntime) client (outcome : WriteOutcome) (w : World) :
  let w' := snd (registerClient client outcome w) in
  map fst (_clientsMap w')
  = match JsMap.get (client_id client) (_clientsMap w) with
    | Some _ => map fst (_clientsMap w)
    | None => (map fst (_clientsMap w) ++ [client_id client])%list
    end
  /\ JsMap.size (_clientsMap w')
     = match JsMap.get (client_id client) (_clientsMap w) with
       | Some _ => JsMap.size (_clientsMap w)
       | None => S (JsMap.size (_clientsMap w))
       end.
Proof.
  intros w'. subst w'. rewrite registerClient_run. cbv zeta.
  assert (Hsize : forall m : JsMap.t JSON, JsMap.size m = length (map fst m))
    by (intros m; unfold JsMap.size; now rewrite length_map).
  destruct outcome; world_simpl;
    (split; [apply keys_set|]);
    rewrite !Hsize, keys_set;
    (destruct (JsMap.get (client_id client) (_clientsMap w));
     [reflexivity | rewrite length_app; cbn [length]; lia]).
Qed.
